(** * nerfnet: the radio tunnel transport, embedded in Rocq

    A shallow embedding of the parts of nerfnet that its specification makes
    claims about:

    - [EncodeDecode]: [EncodeValue] of [nerfnet/util/encode_decode.cc];
    - [MockLink]: [MockLink::Beacon] of [nerfnet/net/mock_link.cc];
    - [Secondary]: the request handlers of
      [nerfnet/net/secondary_radio_interface.cc].

    Unsigned C++ integers are integers of [Z] reduced modulo their width,
    [std::string] payloads are lists of bytes, [std::optional] is [option],
    and the handlers run in a small state monad over the fields of the
    endpoint object, in which an unguarded [std::optional::value()] on an
    empty optional is a thrown exception. *)

From Stdlib Require Import ZArith List Bool Lia.
From Stdlib Require Import Init.Byte.
Import ListNotations.
Local Open Scope Z_scope.

(** ** Fixed-width unsigned integers *)

Module Int.

(** [static_cast<uint8_t>(x)]. *)
Definition to_u8 (x : Z) : Z := x mod 2 ^ 8.

(** Conversion to [uint32_t]. *)
Definition to_u32 (x : Z) : Z := x mod 2 ^ 32.

(** Conversion to [uint64_t]. *)
Definition to_u64 (x : Z) : Z := x mod 2 ^ 64.

Definition is_u8 (x : Z) : Prop := 0 <= x < 2 ^ 8.
Definition is_u32 (x : Z) : Prop := 0 <= x < 2 ^ 32.
Definition is_u64 (x : Z) : Prop := 0 <= x < 2 ^ 64.

End Int.

(** ** nerfnet/util/encode_decode.cc *)

Module EncodeDecode.

(** [std::string::push_back]. *)
Definition push_back (s : list Z) (c : Z) : list Z := s ++ [c].

(** [std::string EncodeValue(uint32_t value)]; the characters of the result
    are given by their 8-bit values. *)
Definition EncodeValue (value : Z) : list Z :=
  let encoded_value := [] in
  let encoded_value := push_back encoded_value (Int.to_u8 value) in
  let encoded_value := push_back encoded_value (Int.to_u8 (Z.shiftr value 8)) in
  let encoded_value := push_back encoded_value (Int.to_u8 (Z.shiftr value 16)) in
  let encoded_value := push_back encoded_value (Int.to_u8 (Z.shiftr value 24)) in
  encoded_value.

(** The specification's side of the encoding claim: the [n]-byte
    little-endian representation of [v], least-significant byte first, and
    the value that a little-endian byte string denotes. *)
Fixpoint little_endian (n : nat) (v : Z) : list Z :=
  match n with
  | O => []
  | S k => v mod 256 :: little_endian k (v / 256)
  end.

Fixpoint little_endian_value (bs : list Z) : Z :=
  match bs with
  | [] => 0
  | b :: rest => b + 256 * little_endian_value rest
  end.

End EncodeDecode.

(** ** nerfnet/net/mock_link.cc *)

Module MockLink.

(** Modelled from the spec: [Link::TransmitResult] is declared in
    nerfnet/net/link.h, which is not among the sources; the specification
    gives the results of [beacon] and [transmit] as Success and
    TransmitError. *)
Inductive TransmitResult : Type :=
| SUCCESS
| TRANSMIT_ERROR.

(** The fields of [MockLink::Config] that [Beacon] reads. *)
Record Config : Type := mkConfig {
  beacon_interval_us : Z;
  beacon_result_pattern : list TransmitResult
}.

(** A gtest expectation, [EXPECT_GE(a, b)] or [EXPECT_LT(a, b)]. A failed
    expectation is recorded and the test body goes on. *)
Inductive Expectation : Type :=
| EXPECT_GE (a b : Z)
| EXPECT_LT (a b : Z).

Definition holds (e : Expectation) : bool :=
  match e with
  | EXPECT_GE a b => b <=? a
  | EXPECT_LT a b => a <? b
  end.

(** The members of the mock that [Beacon] touches, and the expectations that
    have failed so far. [beacon_count_] and the times are 64 bits wide. *)
Record State : Type := mkState {
  start_time_us_ : Z;
  beacon_count_ : Z;
  failures_ : list Expectation
}.

(** The constructor; [now] is the value of [TimeNowUs()]. *)
Definition MockLink (now : Z) : State :=
  {| start_time_us_ := now; beacon_count_ := 0; failures_ := [] |}.

(** [MockLink::RelativeTimeUs]. *)
Definition RelativeTimeUs (now : Z) (st : State) : Z :=
  Int.to_u64 (now - start_time_us_ st).

Definition expect (e : Expectation) (st : State) : State :=
  if holds e then st
  else {| start_time_us_ := start_time_us_ st;
          beacon_count_ := beacon_count_ st;
          failures_ := failures_ st ++ [e] |}.

(** [MockLink::Beacon]. The remainder by the size of an empty result pattern
    is undefined: no result. *)
Definition Beacon (config : Config) (now : Z) (st : State)
  : option (TransmitResult * State) :=
  let relative_time_us := RelativeTimeUs now st in
  let expected_beacon_time_us :=
    Int.to_u64 (beacon_count_ st * beacon_interval_us config) in
  let st := expect (EXPECT_GE relative_time_us expected_beacon_time_us) st in
  let st := expect (EXPECT_LT relative_time_us
                      (Int.to_u64 (expected_beacon_time_us + 10000))) st in
  let size := Z.of_nat (length (beacon_result_pattern config)) in
  if size =? 0 then None
  else
    let result_index := beacon_count_ st mod size in
    let st' := {| start_time_us_ := start_time_us_ st;
                  beacon_count_ := Int.to_u64 (beacon_count_ st + 1);
                  failures_ := failures_ st |} in
    match nth_error (beacon_result_pattern config) (Z.to_nat result_index) with
    | Some result => Some (result, st')
    | None => None
    end.

(** An invocation of [Beacon] passes its schedule assertions when it records
    no failed expectation. *)
Definition passes (st st' : State) : Prop :=
  failures_ st' = failures_ st.

(** A run of beacons at the clock values [clock], one after the other. *)
Fixpoint beacons (config : Config) (clock : list Z) (st : State)
  : option State :=
  match clock with
  | [] => Some st
  | now :: later =>
      match Beacon config now st with
      | Some (_, st') => beacons config later st'
      | None => None
      end
  end.

(** Modelled from the spec: [Link::ReceiveResult] is declared in
    nerfnet/net/link.h, which is not among the sources. The mock names
    [SUCCESS] and [NOT_READY]; the specification gives the results of
    [receive] as Success, NotReady and ChecksumError. *)
Module ReceiveResult.

Inductive t : Type :=
| SUCCESS
| NOT_READY
| CHECKSUM_ERROR.

Definition eqb (a b : t) : bool :=
  match a, b with
  | SUCCESS, SUCCESS | NOT_READY, NOT_READY
  | CHECKSUM_ERROR, CHECKSUM_ERROR => true
  | _, _ => false
  end.

End ReceiveResult.

Section Replay.

(** The frames of the link, whatever they hold. *)
Context {Frame : Type}.

(** [MockLink::Receive]. [receive_result] is the field of the configuration,
    [receive_count_] the member of the mock, which only moves below the size
    of the vector, and [frame] what [*frame] holds. *)
Definition Receive (receive_result : list (ReceiveResult.t * Frame))
  (receive_count_ : nat) (frame : Frame)
  : ReceiveResult.t * nat * Frame :=
  if (length receive_result <=? receive_count_)%nat then
    (ReceiveResult.NOT_READY, receive_count_, frame)
  else
    match nth_error receive_result receive_count_ with
    | Some receive_frame =>
        let receive_count_ := S receive_count_ in
        let frame :=
          if ReceiveResult.eqb (fst receive_frame) ReceiveResult.SUCCESS
          then snd receive_frame else frame in
        (fst receive_frame, receive_count_, frame)
    | None => (ReceiveResult.NOT_READY, receive_count_, frame)
    end.

(** [calls] invocations of [Receive], one after the other, with their
    results in order. *)
Fixpoint Receives (receive_result : list (ReceiveResult.t * Frame))
  (calls : nat) (receive_count_ : nat) (frame : Frame)
  : list ReceiveResult.t * nat * Frame :=
  match calls with
  | O => ([], receive_count_, frame)
  | S later =>
      let '(result, receive_count_, frame) :=
        Receive receive_result receive_count_ frame in
      let '(results, receive_count_, frame) :=
        Receives receive_result later receive_count_ frame in
      (result :: results, receive_count_, frame)
  end.

(** The frame of the last successful entry of a script, or [frame]. *)
Definition last_received (script : list (ReceiveResult.t * Frame))
  (frame : Frame) : Frame :=
  fold_left
    (fun frame entry =>
       if ReceiveResult.eqb (fst entry) ReceiveResult.SUCCESS
       then snd entry else frame)
    script frame.

End Replay.

(** The time of a beacon lies in the window of the beacon numbered [n]. *)
Definition on_schedule (config : Config) (n : Z) (relative_time_us : Z)
  : Prop :=
  n * beacon_interval_us config <= relative_time_us
    < n * beacon_interval_us config + 10000.

End MockLink.

(** ** nerfnet/net/secondary_radio_interface.cc *)

Module Secondary.

(** [RequestResult], as nerfnet/net/primary_radio_interface.h declares it. *)
Inductive RequestResult : Type :=
| Success
| Timeout
| MalformedRequest
| TransmitError.

Definition RequestResult_eqb (a b : RequestResult) : bool :=
  match a, b with
  | Success, Success | Timeout, Timeout
  | MalformedRequest, MalformedRequest | TransmitError, TransmitError => true
  | _, _ => false
  end.

(** *** Messages

    The generated protobuf classes are not among the sources; the messages
    are records of optional fields with the accessors the handlers call.
    A getter of an absent field returns the default, zero or empty. *)

Record Ping : Type := mkPing {
  opt_value : option Z
}.

Definition has_value (ping : Ping) : bool :=
  match opt_value ping with Some _ => true | None => false end.

Definition value (ping : Ping) : Z :=
  match opt_value ping with Some v => v | None => 0 end.

Definition set_value (v : Z) (ping : Ping) : Ping :=
  {| opt_value := Some v |}.

Record NetworkTunnelTxRx : Type := mkNetworkTunnelTxRx {
  opt_id : option Z;
  opt_ack_id : option Z;
  opt_payload : option (list byte);
  opt_remaining_bytes : option Z
}.

Definition has_id (tunnel : NetworkTunnelTxRx) : bool :=
  match opt_id tunnel with Some _ => true | None => false end.

Definition id (tunnel : NetworkTunnelTxRx) : Z :=
  match opt_id tunnel with Some v => v | None => 0 end.

Definition has_ack_id (tunnel : NetworkTunnelTxRx) : bool :=
  match opt_ack_id tunnel with Some _ => true | None => false end.

Definition ack_id (tunnel : NetworkTunnelTxRx) : Z :=
  match opt_ack_id tunnel with Some v => v | None => 0 end.

Definition has_payload (tunnel : NetworkTunnelTxRx) : bool :=
  match opt_payload tunnel with Some _ => true | None => false end.

Definition payload (tunnel : NetworkTunnelTxRx) : list byte :=
  match opt_payload tunnel with Some p => p | None => [] end.

Definition remaining_bytes (tunnel : NetworkTunnelTxRx) : Z :=
  match opt_remaining_bytes tunnel with Some v => v | None => 0 end.

Definition set_id (v : Z) (t : NetworkTunnelTxRx) : NetworkTunnelTxRx :=
  {| opt_id := Some v; opt_ack_id := opt_ack_id t;
     opt_payload := opt_payload t;
     opt_remaining_bytes := opt_remaining_bytes t |}.

Definition set_ack_id (v : Z) (t : NetworkTunnelTxRx) : NetworkTunnelTxRx :=
  {| opt_id := opt_id t; opt_ack_id := Some v;
     opt_payload := opt_payload t;
     opt_remaining_bytes := opt_remaining_bytes t |}.

Definition set_payload (p : list byte) (t : NetworkTunnelTxRx)
  : NetworkTunnelTxRx :=
  {| opt_id := opt_id t; opt_ack_id := opt_ack_id t;
     opt_payload := Some p;
     opt_remaining_bytes := opt_remaining_bytes t |}.

(** The field is a [uint32]; the argument in the handler is a [size_t]. *)
Definition set_remaining_bytes (v : Z) (t : NetworkTunnelTxRx)
  : NetworkTunnelTxRx :=
  {| opt_id := opt_id t; opt_ack_id := opt_ack_id t;
     opt_payload := opt_payload t;
     opt_remaining_bytes := Some (Int.to_u32 v) |}.

(** A freshly constructed message has no field set. *)
Definition empty_ping : Ping := {| opt_value := None |}.

Definition empty_tunnel : NetworkTunnelTxRx :=
  {| opt_id := None; opt_ack_id := None;
     opt_payload := None; opt_remaining_bytes := None |}.

(** [Request] and [Response]: a case that is not set, or one of the two
    messages. *)
Inductive Request : Type :=
| REQUEST_NOT_SET
| kPing (ping : Ping)
| kNetworkTunnelTxrx (tunnel : NetworkTunnelTxRx).

Inductive Response : Type :=
| RESPONSE_NOT_SET
| ResponsePing (ping : Ping)
| ResponseNetworkTunnelTxrx (tunnel : NetworkTunnelTxRx).

(** *** The endpoint *)

(** The lines that the handlers log. *)
Inductive LogLine : Type :=
| Received_unknown_request
| Responding_to_ping_request
| Failed_to_send_ping_response
| Missing_tunnel_fields
| Received_non_sequential_packet (last_ack_id id : Z)
| Writing_bytes_to_the_tunnel (size : Z)
| Failed_to_write_to_tunnel
| Primary_radio_failed_to_ack
| Failed_to_send_network_tunnel_txrx_response.

(** The members of the radio interface that the handlers read and write,
    followed by what the handlers do to the outside: the buffers handed to
    [write] on [tunnel_fd_], the responses handed to [Send], and the log,
    each oldest first. *)
Record Endpoint : Type := mkEndpoint {
  next_id_ : Z;
  last_ack_id_ : option Z;
  frame_buffer_ : list byte;
  read_buffer_ : list (list byte);
  payload_in_flight_ : bool;
  written_ : list (list byte);
  sent_ : list Response;
  log_ : list LogLine
}.

(** What the outside answers during one handler: the return value of
    [write] and the status of [Send]. *)
Record Outside : Type := mkOutside {
  bytes_written : Z;
  send_status : RequestResult
}.

(** The constructor leaves the counters of the base class at their initial
    values and sets [payload_in_flight_] to false. *)
Definition SecondaryRadioInterface : Endpoint :=
  {| next_id_ := 0; last_ack_id_ := None; frame_buffer_ := [];
     read_buffer_ := []; payload_in_flight_ := false;
     written_ := []; sent_ := []; log_ := [] |}.

Definition with_next_id (v : Z) (s : Endpoint) : Endpoint :=
  {| next_id_ := v; last_ack_id_ := last_ack_id_ s;
     frame_buffer_ := frame_buffer_ s; read_buffer_ := read_buffer_ s;
     payload_in_flight_ := payload_in_flight_ s;
     written_ := written_ s; sent_ := sent_ s; log_ := log_ s |}.

Definition with_last_ack_id (v : option Z) (s : Endpoint) : Endpoint :=
  {| next_id_ := next_id_ s; last_ack_id_ := v;
     frame_buffer_ := frame_buffer_ s; read_buffer_ := read_buffer_ s;
     payload_in_flight_ := payload_in_flight_ s;
     written_ := written_ s; sent_ := sent_ s; log_ := log_ s |}.

Definition with_frame_buffer (v : list byte) (s : Endpoint) : Endpoint :=
  {| next_id_ := next_id_ s; last_ack_id_ := last_ack_id_ s;
     frame_buffer_ := v; read_buffer_ := read_buffer_ s;
     payload_in_flight_ := payload_in_flight_ s;
     written_ := written_ s; sent_ := sent_ s; log_ := log_ s |}.

Definition with_read_buffer (v : list (list byte)) (s : Endpoint) : Endpoint :=
  {| next_id_ := next_id_ s; last_ack_id_ := last_ack_id_ s;
     frame_buffer_ := frame_buffer_ s; read_buffer_ := v;
     payload_in_flight_ := payload_in_flight_ s;
     written_ := written_ s; sent_ := sent_ s; log_ := log_ s |}.

Definition with_payload_in_flight (v : bool) (s : Endpoint) : Endpoint :=
  {| next_id_ := next_id_ s; last_ack_id_ := last_ack_id_ s;
     frame_buffer_ := frame_buffer_ s; read_buffer_ := read_buffer_ s;
     payload_in_flight_ := v;
     written_ := written_ s; sent_ := sent_ s; log_ := log_ s |}.

Definition with_written (v : list (list byte)) (s : Endpoint) : Endpoint :=
  {| next_id_ := next_id_ s; last_ack_id_ := last_ack_id_ s;
     frame_buffer_ := frame_buffer_ s; read_buffer_ := read_buffer_ s;
     payload_in_flight_ := payload_in_flight_ s;
     written_ := v; sent_ := sent_ s; log_ := log_ s |}.

Definition with_sent (v : list Response) (s : Endpoint) : Endpoint :=
  {| next_id_ := next_id_ s; last_ack_id_ := last_ack_id_ s;
     frame_buffer_ := frame_buffer_ s; read_buffer_ := read_buffer_ s;
     payload_in_flight_ := payload_in_flight_ s;
     written_ := written_ s; sent_ := v; log_ := log_ s |}.

Definition with_log (v : list LogLine) (s : Endpoint) : Endpoint :=
  {| next_id_ := next_id_ s; last_ack_id_ := last_ack_id_ s;
     frame_buffer_ := frame_buffer_ s; read_buffer_ := read_buffer_ s;
     payload_in_flight_ := payload_in_flight_ s;
     written_ := written_ s; sent_ := sent_ s; log_ := v |}.

(** *** The monad of the handlers

    A member function either returns a value and leaves the endpoint in a
    new state, or throws [std::bad_optional_access] out of the handler. *)

Inductive Outcome (A : Type) : Type :=
| Returned (a : A) (s : Endpoint)
| Thrown (s : Endpoint).

Arguments Returned {A} a s.
Arguments Thrown {A} s.

Definition M (A : Type) : Type := Endpoint -> Outcome A.

Definition ret {A : Type} (a : A) : M A := fun s => Returned a s.

Definition bind {A B : Type} (m : M A) (k : A -> M B) : M B :=
  fun s =>
    match m s with
    | Returned a s' => k a s'
    | Thrown s' => Thrown s'
    end.

Declare Scope handler_scope.
Delimit Scope handler_scope with handler.

Notation "x <- m ;; k" := (bind m (fun x => k))
  (at level 61, m at next level, right associativity) : handler_scope.
Notation "m ;; k" := (bind m (fun _ => k))
  (at level 61, right associativity) : handler_scope.

Local Open Scope handler_scope.

(** Reading a member, and assigning to the endpoint. *)
Definition read {A : Type} (field : Endpoint -> A) : M A :=
  fun s => Returned (field s) s.

Definition assign (f : Endpoint -> Endpoint) : M unit :=
  fun s => Returned tt (f s).

(** [std::optional::value()]. *)
Definition optional_value {A : Type} (o : option A) : M A :=
  fun s =>
    match o with
    | Some v => Returned v s
    | None => Thrown s
    end.

(** [LOGE] and [LOGI]. *)
Definition LOG (line : LogLine) : M unit :=
  assign (fun s => with_log (log_ s ++ [line]) s).

(** [write(tunnel_fd_, data, size)]. *)
Definition write (out : Outside) (data : list byte) : M Z :=
  assign (fun s => with_written (written_ s ++ [data]) s) ;;
  ret (bytes_written out).

(** [Send(response)]. *)
Definition Send (out : Outside) (response : Response) : M RequestResult :=
  assign (fun s => with_sent (sent_ s ++ [response]) s) ;;
  ret (send_status out).

(** Modelled from the spec: [RadioInterface::ValidateID] is defined in
    nerfnet/net/radio_interface.cc, which is not among the sources. On the
    first message ever received [last_ack_id] becomes the received id and any
    id is accepted; afterwards an id is valid iff it equals
    [last_ack_id + 1] modulo 2^32, and on valid receipt [last_ack_id]
    becomes the id. *)
Definition ValidateID (id : Z) : M bool :=
  last_ack_id <- read last_ack_id_ ;;
  match last_ack_id with
  | None => assign (with_last_ack_id (Some id)) ;; ret true
  | Some last =>
      if id =? Int.to_u32 (last + 1)
      then assign (with_last_ack_id (Some id)) ;; ret true
      else ret false
  end.

(** Modelled from the spec: [RadioInterface::AdvanceID] is defined in
    nerfnet/net/radio_interface.cc, which is not among the sources. It takes
    no argument and is called when the peer acknowledges [next_id]: the
    endpoint's own [next_id], 32 bits unsigned and wrapping, advances by
    one. *)
Definition AdvanceID : M unit :=
  assign (fun s => with_next_id (Int.to_u32 (next_id_ s + 1)) s).

(** [std::min(frame.size(), static_cast<size_t>(8))]. *)
Definition transfer_size_of (frame : list byte) : nat :=
  Nat.min (length frame) 8.

(** [HandlePing]. *)
Definition HandlePing (out : Outside) (ping : Ping) : M unit :=
  let ping_response := empty_ping in
  let ping_response :=
    if has_value ping then set_value (value ping) ping_response
    else ping_response in
  LOG Responding_to_ping_request ;;
  status <- Send out (ResponsePing ping_response) ;;
  if negb (RequestResult_eqb status Success)
  then LOG Failed_to_send_ping_response
  else ret tt.

(** The test that opens [HandleNetworkTunnelTxRx]. *)
Definition missing_tunnel_fields (s : Endpoint) (tunnel : NetworkTunnelTxRx)
  : bool :=
  negb (has_id tunnel)
  || (match last_ack_id_ s with Some _ => true | None => false end)
     && negb (has_ack_id tunnel).

(** The receive side of [HandleNetworkTunnelTxRx]: the validity check, and
    for a valid message with a payload the append to [frame_buffer_] and the
    flush to the tunnel. *)
Definition receive_payload (out : Outside) (tunnel : NetworkTunnelTxRx)
  : M unit :=
  valid <- ValidateID (id tunnel) ;;
  if negb valid then
    last_ack_id <- read last_ack_id_ ;;
    last <- optional_value last_ack_id ;;
    LOG (Received_non_sequential_packet last (id tunnel))
  else if has_payload tunnel then
    assign (fun s => with_frame_buffer (frame_buffer_ s ++ payload tunnel) s) ;;
    if remaining_bytes tunnel =? 0 then
      frame_buffer <- read frame_buffer_ ;;
      bytes_written <- write out frame_buffer ;;
      LOG (Writing_bytes_to_the_tunnel (Z.of_nat (length frame_buffer))) ;;
      assign (with_frame_buffer []) ;;
      if bytes_written <? 0 then LOG Failed_to_write_to_tunnel else ret tt
    else ret tt
  else ret tt.

(** Erasing the transmitted chunk from the front datagram of the read
    buffer, and popping the datagram once it is empty. *)
Definition erase_transmitted (read_buffer : list (list byte))
  : list (list byte) :=
  match read_buffer with
  | [] => []
  | frame :: rest =>
      let transfer_size := transfer_size_of frame in
      let frame := skipn transfer_size frame in
      match frame with
      | [] => rest
      | _ :: _ => frame :: rest
      end
  end.

(** The acknowledgement side of [HandleNetworkTunnelTxRx]. *)
Definition process_ack (tunnel : NetworkTunnelTxRx) : M unit :=
  if has_ack_id tunnel then
    next_id <- read next_id_ ;;
    if negb (ack_id tunnel =? next_id) then
      LOG Primary_radio_failed_to_ack
    else
      AdvanceID ;;
      payload_in_flight <- read payload_in_flight_ ;;
      if payload_in_flight then
        assign (fun s => with_read_buffer (erase_transmitted (read_buffer_ s)) s) ;;
        assign (with_payload_in_flight false)
      else ret tt
  else ret tt.

(** The composition of the response of [HandleNetworkTunnelTxRx]. *)
Definition compose_response : M Response :=
  let tunnel_response := empty_tunnel in
  next_id <- read next_id_ ;;
  let tunnel_response := set_id next_id tunnel_response in
  last_ack_id <- read last_ack_id_ ;;
  last <- optional_value last_ack_id ;;
  let tunnel_response := set_ack_id last tunnel_response in
  read_buffer <- read read_buffer_ ;;
  match read_buffer with
  | [] => ret (ResponseNetworkTunnelTxrx tunnel_response)
  | frame :: _ =>
      let transfer_size := transfer_size_of frame in
      let tunnel_response :=
        set_payload (firstn transfer_size frame) tunnel_response in
      let tunnel_response :=
        set_remaining_bytes
          (Z.of_nat (length frame - transfer_size)) tunnel_response in
      assign (with_payload_in_flight true) ;;
      ret (ResponseNetworkTunnelTxrx tunnel_response)
  end.

(** [HandleNetworkTunnelTxRx]. The read buffer mutex is held from the first
    line to the last, so the tunnel reader does not run in between. *)
Definition HandleNetworkTunnelTxRx (out : Outside) (tunnel : NetworkTunnelTxRx)
  : M unit :=
  missing <- read (fun s => missing_tunnel_fields s tunnel) ;;
  if missing then
    LOG Missing_tunnel_fields
  else
    receive_payload out tunnel ;;
    process_ack tunnel ;;
    response <- compose_response ;;
    status <- Send out response ;;
    if negb (RequestResult_eqb status Success)
    then LOG Failed_to_send_network_tunnel_txrx_response
    else ret tt.

(** [HandleRequest]. *)
Definition HandleRequest (out : Outside) (request : Request) : M unit :=
  match request with
  | kPing ping => HandlePing out ping
  | kNetworkTunnelTxrx tunnel => HandleNetworkTunnelTxRx out tunnel
  | REQUEST_NOT_SET => LOG Received_unknown_request
  end.

(** [Run], over a finite prefix of what [Receive] delivers: the result of
    each [Receive], the request it filled in, and what the outside answers
    while the request is handled. The loop itself never ends. *)
Fixpoint Run (received : list (RequestResult * Request * Outside)) : M unit :=
  match received with
  | [] => ret tt
  | (result, request, out) :: later =>
      (if RequestResult_eqb result Success
       then HandleRequest out request
       else ret tt) ;;
      Run later
  end.

End Secondary.

(** ** Vocabulary of the statements *)

Module Claims.

Import Secondary.

(** The validity check of the specification on the id [i] of a received
    message: any id before the first accepted message, the successor of
    [last_ack_id] modulo 2^32 afterwards. *)
Definition expected_id (s : Endpoint) (i : Z) : bool :=
  match last_ack_id_ s with
  | None => true
  | Some last => i =? Int.to_u32 (last + 1)
  end.

(** The received message acknowledges the endpoint's [next_id]. *)
Definition acknowledges (tunnel : NetworkTunnelTxRx) (s : Endpoint) : bool :=
  match opt_ack_id tunnel with
  | Some a => a =? next_id_ s
  | None => false
  end.

(** The handler answers the request: it returns, and exactly one response
    has been handed to [Send]. *)
Definition responds (out : Outside) (tunnel : NetworkTunnelTxRx) (s : Endpoint)
  : Prop :=
  exists s' response,
    HandleNetworkTunnelTxRx out tunnel s = Returned tt s' /\
    sent_ s' = sent_ s ++ [response].

(** The members of the endpoint, without the record of what was written,
    sent and logged. *)
Definition members (s : Endpoint)
  : Z * option Z * list byte * list (list byte) * bool :=
  (next_id_ s, last_ack_id_ s, frame_buffer_ s, read_buffer_ s,
   payload_in_flight_ s).

(** Concrete inputs. The outside accepts every write and every send. *)
Definition outside_ok : Outside :=
  {| bytes_written := 0; send_status := Success |}.

Definition ABCDEFGH : list byte := [x41; x42; x43; x44; x45; x46; x47; x48].
Definition IJKLM : list byte := [x49; x4a; x4b; x4c; x4d].

(** An endpoint that has accepted id 3, has sent [IJKLM] under id 7 and
    waits for its acknowledgement. *)
Definition waiting_for_ack_of_7 : Endpoint :=
  {| next_id_ := 7; last_ack_id_ := Some 3; frame_buffer_ := [];
     read_buffer_ := [IJKLM]; payload_in_flight_ := true;
     written_ := []; sent_ := []; log_ := [] |}.

(** A request out of sequence (id 5 after 3) that acknowledges id 7. *)
Definition request_5_ack_7 : NetworkTunnelTxRx :=
  {| opt_id := Some 5; opt_ack_id := Some 7;
     opt_payload := Some ABCDEFGH; opt_remaining_bytes := Some 0 |}.

(** The first two requests of a session: the first fragment of a datagram,
    with five bytes to follow, and then a request that acknowledges id 0 and
    carries no payload. *)
Definition request_0_first_fragment : NetworkTunnelTxRx :=
  {| opt_id := Some 0; opt_ack_id := None;
     opt_payload := Some ABCDEFGH; opt_remaining_bytes := Some 5 |}.

Definition request_1_no_payload : NetworkTunnelTxRx :=
  {| opt_id := Some 1; opt_ack_id := Some 0;
     opt_payload := None; opt_remaining_bytes := None |}.

(** The endpoint after the first of the two. *)
Definition after_first_fragment : Endpoint :=
  {| next_id_ := 0; last_ack_id_ := Some 0; frame_buffer_ := ABCDEFGH;
     read_buffer_ := []; payload_in_flight_ := false;
     written_ := [];
     sent_ := [ResponseNetworkTunnelTxrx
                 {| opt_id := Some 0; opt_ack_id := Some 0;
                    opt_payload := None; opt_remaining_bytes := None |}];
     log_ := [] |}.

(** An endpoint that has accepted id 3 and holds a datagram that arrived
    from the tunnel and has not been sent yet. *)
Definition datagram_waiting : Endpoint :=
  {| next_id_ := 7; last_ack_id_ := Some 3; frame_buffer_ := [];
     read_buffer_ := [IJKLM]; payload_in_flight_ := false;
     written_ := []; sent_ := []; log_ := [] |}.

(** A request in sequence after id 3 that acknowledges id 6. *)
Definition request_4_ack_6 : NetworkTunnelTxRx :=
  {| opt_id := Some 4; opt_ack_id := Some 6;
     opt_payload := None; opt_remaining_bytes := None |}.

(** The second request of scenario S1 and the request of scenario S5. *)
Definition request_1_last_fragment : NetworkTunnelTxRx :=
  {| opt_id := Some 1; opt_ack_id := Some 0;
     opt_payload := Some IJKLM; opt_remaining_bytes := Some 0 |}.

Definition request_5_without_ack : NetworkTunnelTxRx :=
  {| opt_id := Some 5; opt_ack_id := None;
     opt_payload := Some ABCDEFGH; opt_remaining_bytes := None |}.

(** A mock link that expects a beacon every 100 ms. *)
Definition every_100ms : MockLink.Config :=
  {| MockLink.beacon_interval_us := 100000;
     MockLink.beacon_result_pattern := [MockLink.SUCCESS] |}.

Definition after_one_beacon : MockLink.State :=
  {| MockLink.start_time_us_ := 0; MockLink.beacon_count_ := 1;
     MockLink.failures_ := [] |}.

End Claims.

(** ** Sessions of the secondary *)

Module Session.

Import Secondary.

(** What [Receive] delivers when every request of [requests] arrives intact
    and the outside answers [out] each time. *)
Definition tunnel_requests (out : Outside)
  (requests : list NetworkTunnelTxRx)
  : list (RequestResult * Request * Outside) :=
  map (fun tunnel => (Success, kNetworkTunnelTxrx tunnel, out)) requests.

(** The endpoint is consistent: [next_id_] is a 32-bit value, and a payload
    is in flight only while the read buffer holds a datagram. *)
Definition consistent (s : Endpoint) : Prop :=
  Int.is_u32 (next_id_ s) /\
  (payload_in_flight_ s = true -> read_buffer_ s <> []).

(** The requests acknowledge, one after the other, the ids that the endpoint
    sends from [next_id] on, and none lacks a field. *)
Definition acknowledge_from (next_id : Z) (requests : list NetworkTunnelTxRx)
  : Prop :=
  forall (k : nat) tunnel,
    nth_error requests k = Some tunnel ->
    opt_id tunnel <> None /\
    opt_ack_id tunnel = Some (Int.to_u32 (next_id + Z.of_nat k)).

(** The requests carry, one after the other, the ids that follow [last],
    each with an acknowledgement and a payload. *)
Definition fragments_after (last : Z) (requests : list NetworkTunnelTxRx)
  : Prop :=
  forall (k : nat) tunnel,
    nth_error requests k = Some tunnel ->
    opt_id tunnel = Some (Int.to_u32 (last + 1 + Z.of_nat k)) /\
    opt_ack_id tunnel <> None /\
    opt_payload tunnel <> None.

(** An endpoint that has sent the first eight bytes of a datagram of
    thirteen under id 7 and waits for their acknowledgement. *)
Definition sending_thirteen_bytes : Endpoint :=
  {| next_id_ := 7; last_ack_id_ := Some 3; frame_buffer_ := [];
     read_buffer_ := [Claims.ABCDEFGH ++ Claims.IJKLM];
     payload_in_flight_ := true;
     written_ := []; sent_ := []; log_ := [] |}.

(** A request in sequence after id 3 that acknowledges id 8. *)
Definition request_4_ack_8 : NetworkTunnelTxRx :=
  {| opt_id := Some 4; opt_ack_id := Some 8;
     opt_payload := None; opt_remaining_bytes := None |}.

(** Modelled from the spec: the tunnel reader is defined in
    nerfnet/net/radio_interface.cc, which is not among the sources. It reads
    datagrams from the tunnel and appends them to the read buffer under the
    read buffer mutex, so it runs between two handlers and never inside
    one. [arrived] are the datagrams it appends between two handlers. *)
Definition tunnel_reader (arrived : list (list byte)) (s : Endpoint)
  : Endpoint :=
  with_read_buffer (read_buffer_ s ++ arrived) s.

(** The number of receptions that succeeded. *)
Definition successes (received : list (RequestResult * Request * Outside))
  : nat :=
  length
    (filter (fun r => RequestResult_eqb (fst (fst r)) Success) received).

End Session.

(** * Proofs *)

(** ** Fixed-width unsigned integers *)

Lemma to_u8_range x : Int.is_u8 (Int.to_u8 x).
Proof. unfold Int.is_u8, Int.to_u8. apply Z.mod_pos_bound. lia. Qed.

Lemma to_u32_range x : Int.is_u32 (Int.to_u32 x).
Proof. unfold Int.is_u32, Int.to_u32. apply Z.mod_pos_bound. lia. Qed.

Lemma to_u64_range x : Int.is_u64 (Int.to_u64 x).
Proof. unfold Int.is_u64, Int.to_u64. apply Z.mod_pos_bound. lia. Qed.

Lemma to_u32_small x : Int.is_u32 x -> Int.to_u32 x = x.
Proof. unfold Int.is_u32, Int.to_u32. intros H. now apply Z.mod_small. Qed.

Lemma to_u64_small x : Int.is_u64 x -> Int.to_u64 x = x.
Proof. unfold Int.is_u64, Int.to_u64. intros H. now apply Z.mod_small. Qed.

(** Adding one to a 32-bit counter never gives the counter back. *)
Lemma to_u32_succ_neq x : Int.to_u32 (x + 1) <> x.
Proof.
  unfold Int.to_u32. intros E.
  assert (R : 0 <= x < 2 ^ 32) by (rewrite <- E; apply Z.mod_pos_bound; lia).
  destruct (Z.eq_dec x (2 ^ 32 - 1)) as [-> | N].
  - vm_compute in E. discriminate.
  - rewrite Z.mod_small in E by lia. lia.
Qed.

Lemma to_u64_succ_add c k :
  Int.to_u64 (Int.to_u64 (c + 1) + k) = Int.to_u64 (c + (1 + k)).
Proof.
  unfold Int.to_u64. rewrite Z.add_mod_idemp_l by lia.
  f_equal. lia.
Qed.

(** ** EncodeValue *)

Lemma EncodeValue_unfold value :
  EncodeDecode.EncodeValue value =
  [Int.to_u8 value; Int.to_u8 (Z.shiftr value 8);
   Int.to_u8 (Z.shiftr value 16); Int.to_u8 (Z.shiftr value 24)].
Proof. reflexivity. Qed.

Lemma EncodeValue_little_endian value :
  EncodeDecode.EncodeValue value = EncodeDecode.little_endian 4 value.
Proof.
  rewrite EncodeValue_unfold. unfold Int.to_u8.
  cbn [EncodeDecode.little_endian].
  rewrite !Z.shiftr_div_pow2 by lia.
  rewrite !Z.div_div by lia.
  reflexivity.
Qed.

Lemma little_endian_value_inv n v :
  0 <= v < 256 ^ Z.of_nat n ->
  EncodeDecode.little_endian_value (EncodeDecode.little_endian n v) = v.
Proof.
  revert v. induction n as [| n IH]; intros v Hv.
  - cbn in *. lia.
  - cbn [EncodeDecode.little_endian EncodeDecode.little_endian_value].
    rewrite IH.
    + pose proof (Z.div_mod v 256). lia.
    + rewrite Nat2Z.inj_succ, Z.pow_succ_r in Hv by lia.
      split.
      * apply Z.div_pos; lia.
      * apply Z.div_lt_upper_bound; lia.
Qed.

(** C9. For every 32-bit unsigned [v], [EncodeValue v] is exactly four bytes,
    the little-endian representation of [v] with the least-significant byte
    first: byte [i] is [v / 256^i mod 256], and reading the four bytes back
    least-significant first gives [v]. In particular
    [EncodeValue 0x01020304] is the bytes [04 03 02 01]. *)
Theorem EncodeValue_is_little_endian (v : Z) (Hv : Int.is_u32 v) :
  length (EncodeDecode.EncodeValue v) = 4%nat /\
  Forall Int.is_u8 (EncodeDecode.EncodeValue v) /\
  EncodeDecode.EncodeValue v = EncodeDecode.little_endian 4 v /\
  (forall i : nat, (i < 4)%nat ->
     nth i (EncodeDecode.EncodeValue v) 0 = (v / 256 ^ Z.of_nat i) mod 256) /\
  EncodeDecode.little_endian_value (EncodeDecode.EncodeValue v) = v /\
  EncodeDecode.EncodeValue 16909060 = [4; 3; 2; 1].
Proof.
  split; [reflexivity |].
  split; [rewrite EncodeValue_unfold; repeat constructor; apply to_u8_range |].
  split; [apply EncodeValue_little_endian |].
  split; [| split; [| reflexivity]].
  - intros i Hi. rewrite EncodeValue_unfold. unfold Int.to_u8.
    rewrite !Z.shiftr_div_pow2 by lia.
    destruct i as [| [| [| [| i]]]]; try lia; cbn [nth]; try reflexivity.
    now rewrite Z.div_1_r.
  - rewrite EncodeValue_little_endian.
    apply little_endian_value_inv. exact Hv.
Qed.

Lemma EncodeValue_is_little_endian_witness :
  Int.is_u32 16909060 /\
  EncodeDecode.little_endian_value (EncodeDecode.EncodeValue 16909060)
  = 16909060.
Proof.
  assert (H : Int.is_u32 16909060) by (unfold Int.is_u32; lia).
  split; [exact H |].
  exact (proj1 (proj2 (proj2 (proj2 (proj2
    (EncodeValue_is_little_endian 16909060 H)))))).
Defined.

(** ** The beacon schedule of the mock link *)

Section BeaconSchedule.

Import MockLink.

Variable config : Config.

Lemma expect_members e st :
  start_time_us_ (expect e st) = start_time_us_ st /\
  beacon_count_ (expect e st) = beacon_count_ st /\
  failures_ (expect e st) = failures_ st ++ (if holds e then [] else [e]).
Proof.
  unfold expect. destruct (holds e); cbn; rewrite ?app_nil_r; auto.
Qed.

(** What one [Beacon] does to the mock, whenever it has a result. *)
Lemma Beacon_step now st result st' :
  Beacon config now st = Some (result, st') ->
  start_time_us_ st' = start_time_us_ st /\
  beacon_count_ st' = Int.to_u64 (beacon_count_ st + 1).
Proof.
  unfold Beacon.
  set (ge := EXPECT_GE _ _). set (lt := EXPECT_LT _ _).
  destruct (expect_members ge st) as (S1 & C1 & _).
  destruct (expect_members lt (expect ge st)) as (S2 & C2 & _).
  destruct (_ =? 0); [discriminate |].
  destruct (nth_error _ _); [| discriminate].
  intros E. injection E as _ <-. cbn.
  rewrite S2, S1, C2, C1. auto.
Qed.

(** With a result pattern that is not empty, [Beacon] has a result. *)
Lemma Beacon_total now st :
  beacon_result_pattern config <> [] ->
  exists result st', Beacon config now st = Some (result, st').
Proof.
  intros NE. unfold Beacon.
  set (st2 := expect _ (expect _ st)).
  set (size := Z.of_nat (length (beacon_result_pattern config))).
  assert (Hsize : 0 < size).
  { subst size. destruct (beacon_result_pattern config); [congruence |].
    cbn [length]. lia. }
  destruct (Z.eqb_spec size 0) as [E | _]; [lia |].
  pose proof (Z.mod_pos_bound (beacon_count_ st2) size Hsize) as B.
  destruct (nth_error (beacon_result_pattern config)
              (Z.to_nat (beacon_count_ st2 mod size))) eqn:N.
  - eauto.
  - apply nth_error_None in N. subst size. lia.
Qed.

(** The failures that one [Beacon] records. *)
Lemma Beacon_failures now st result st' :
  Beacon config now st = Some (result, st') ->
  let t := RelativeTimeUs now st in
  let expected := Int.to_u64 (beacon_count_ st * beacon_interval_us config) in
  failures_ st' =
  failures_ st
  ++ (if expected <=? t then [] else [EXPECT_GE t expected])
  ++ (if t <? Int.to_u64 (expected + 10000) then []
      else [EXPECT_LT t (Int.to_u64 (expected + 10000))]).
Proof.
  unfold Beacon.
  set (ge := EXPECT_GE _ _). set (lt := EXPECT_LT _ _).
  destruct (expect_members ge st) as (_ & _ & F1).
  destruct (expect_members lt (expect ge st)) as (_ & _ & F2).
  destruct (_ =? 0); [discriminate |].
  destruct (nth_error _ _); [| discriminate].
  intros E. injection E as _ <-. cbn zeta. cbn [failures_].
  rewrite F2, F1, <- app_assoc. reflexivity.
Qed.

(** After the beacons of [clock] the counter is their number, and the start
    time is the one of the constructor. *)
Lemma beacons_count clock : forall st st',
  beacons config clock st = Some st' ->
  start_time_us_ st' = start_time_us_ st /\
  Int.to_u64 (beacon_count_ st') =
  Int.to_u64 (beacon_count_ st + Z.of_nat (length clock)).
Proof.
  induction clock as [| now later IH]; intros st st' R.
  - cbn in R. injection R as <-. rewrite Z.add_0_r. auto.
  - cbn [beacons] in R.
    destruct (Beacon config now st) as [[result st1] |] eqn:B;
      [| discriminate].
    apply Beacon_step in B. destruct B as (S1 & C1).
    apply IH in R. destruct R as (S2 & C2).
    split; [congruence |].
    rewrite C2, C1, to_u64_succ_add. f_equal.
    cbn [length]. lia.
Qed.

Lemma beacons_count_u64 clock : forall st st',
  Int.is_u64 (beacon_count_ st) ->
  beacons config clock st = Some st' ->
  Int.is_u64 (beacon_count_ st').
Proof.
  induction clock as [| now later IH]; intros st st' U R.
  - cbn in R. now injection R as <-.
  - cbn [beacons] in R.
    destruct (Beacon config now st) as [[result st1] |] eqn:B;
      [| discriminate].
    apply Beacon_step in B. destruct B as (_ & C1).
    apply (IH st1); [| exact R].
    rewrite C1. apply to_u64_range.
Qed.

End BeaconSchedule.

(** C8, as amended. The [n]-th invocation of [Beacon] since the constructor,
    counting from 0, with [n * beacon_interval + 10 ms] below 2^64, has a
    result and passes its schedule assertions iff its time relative to the
    start lies in [[n * beacon_interval, n * beacon_interval + 10 ms)]: a
    beacon is accepted up to 10 ms after its nominal time and never before
    it. *)
Theorem Beacon_passes_iff_on_schedule
  (config : MockLink.Config) (start : Z) (clock : list Z) (now : Z)
  (st : MockLink.State)
  (Hpattern : MockLink.beacon_result_pattern config <> [])
  (Hinterval : 0 <= MockLink.beacon_interval_us config)
  (Hrun : MockLink.beacons config clock (MockLink.MockLink start) = Some st)
  (Hfits : Z.of_nat (length clock) * MockLink.beacon_interval_us config
           + 10000 < 2 ^ 64) :
  let n := Z.of_nat (length clock) in
  let t := MockLink.RelativeTimeUs now st in
  exists result st',
    MockLink.Beacon config now st = Some (result, st') /\
    (MockLink.passes st st' <->
     n * MockLink.beacon_interval_us config <= t
       < n * MockLink.beacon_interval_us config + 10000).
Proof.
  intros n t.
  destruct (Beacon_total config now st Hpattern) as (result & st' & B).
  exists result, st'. split; [exact B |].
  pose proof (beacons_count config clock _ _ Hrun) as (_ & C).
  cbn [MockLink.MockLink MockLink.beacon_count_] in C.
  assert (U : Int.is_u64 (MockLink.beacon_count_ st)).
  { apply (beacons_count_u64 config clock _ _) in Hrun; [exact Hrun |].
    cbn. unfold Int.is_u64. lia. }
  rewrite (to_u64_small _ U), Z.add_0_l in C. fold n in C.
  assert (E : Int.to_u64
                (MockLink.beacon_count_ st * MockLink.beacon_interval_us config)
              = n * MockLink.beacon_interval_us config).
  { rewrite C. unfold Int.to_u64.
    rewrite Z.mul_mod_idemp_l by lia.
    apply Z.mod_small. subst n. nia. }
  apply Beacon_failures in B. cbn zeta in B. fold t in B.
  rewrite E in B.
  rewrite (to_u64_small (n * _ + 10000)) in B
    by (unfold Int.is_u64; subst n; nia).
  unfold MockLink.passes. rewrite B.
  destruct (Z.leb_spec (n * MockLink.beacon_interval_us config) t) as [Lo | Lo];
    destruct (Z.ltb_spec t (n * MockLink.beacon_interval_us config + 10000))
      as [Hi | Hi];
    cbn [app]; rewrite ?app_nil_r; split; intros P; try lia; try reflexivity;
    exfalso;
    apply (f_equal (@length _)) in P; rewrite ?length_app in P;
    cbn [length] in P; lia.
Qed.


Lemma Beacon_passes_iff_on_schedule_witness :
  MockLink.beacons Claims.every_100ms [0] (MockLink.MockLink 0)
  = Some Claims.after_one_beacon /\
  exists result st',
    MockLink.Beacon Claims.every_100ms 100500 Claims.after_one_beacon
    = Some (result, st') /\
    (MockLink.passes Claims.after_one_beacon st' <->
     1 * 100000 <= MockLink.RelativeTimeUs 100500 Claims.after_one_beacon
       < 1 * 100000 + 10000).
Proof.
  assert (Hpattern :
    MockLink.beacon_result_pattern Claims.every_100ms <> [])
    by (cbn; discriminate).
  assert (Hinterval : 0 <= MockLink.beacon_interval_us Claims.every_100ms)
    by (cbn; lia).
  assert (Hrun :
    MockLink.beacons Claims.every_100ms [0] (MockLink.MockLink 0)
    = Some Claims.after_one_beacon) by reflexivity.
  assert (Hfits :
    Z.of_nat (length [0]) * MockLink.beacon_interval_us Claims.every_100ms
    + 10000 < 2 ^ 64) by (cbn; lia).
  split; [exact Hrun |].
  exact (Beacon_passes_iff_on_schedule Claims.every_100ms 0 [0] 100500
           Claims.after_one_beacon Hpattern Hinterval Hrun Hfits).
Defined.

(** C8, as stated, fails. With a beacon interval of 100 ms, the beacon
    numbered 1 issued 95 ms after the start is within 10 ms of its nominal
    time and fails [EXPECT_GE]. *)
Lemma early_beacon_fails_its_assertion :
  MockLink.beacons Claims.every_100ms [0] (MockLink.MockLink 0)
  = Some Claims.after_one_beacon /\
  Z.abs (MockLink.RelativeTimeUs 95000 Claims.after_one_beacon
         - 1 * MockLink.beacon_interval_us Claims.every_100ms) < 10000 /\
  exists result st',
    MockLink.Beacon Claims.every_100ms 95000 Claims.after_one_beacon
    = Some (result, st') /\
    MockLink.failures_ st' = [MockLink.EXPECT_GE 95000 100000] /\
    ~ MockLink.passes Claims.after_one_beacon st'.
Proof.
  split; [reflexivity |].
  split; [vm_compute; reflexivity |].
  eexists _, _. split; [reflexivity |].
  split; [reflexivity |].
  unfold MockLink.passes. cbn. discriminate.
Qed.

(** ** The handlers of the secondary *)

Section Handlers.

Import Secondary Claims.
Local Open Scope handler_scope.

(** Running the primitives of the monad. *)
Ltac run :=
  cbv [bind ret read assign optional_value LOG write Send AdvanceID].

(** Splitting a conjunction into its parts. *)
Ltac conjuncts :=
  repeat match goal with |- _ /\ _ => split end.

(** Computing the members of an updated endpoint. *)
Ltac fields :=
  cbv [with_next_id with_last_ack_id with_frame_buffer with_read_buffer
       with_payload_in_flight with_written with_sent with_log
       next_id_ last_ack_id_ frame_buffer_ read_buffer_ payload_in_flight_
       written_ sent_ log_].

Lemma ValidateID_spec i s :
  ValidateID i s =
  Returned (expected_id s i)
    (if expected_id s i then with_last_ack_id (Some i) s else s).
Proof.
  unfold ValidateID, expected_id. run.
  destruct (last_ack_id_ s) as [last |]; [| reflexivity].
  destruct (i =? Int.to_u32 (last + 1)); reflexivity.
Qed.

(** *** The receive side *)

Lemma receive_payload_invalid out tunnel s last :
  last_ack_id_ s = Some last ->
  expected_id s (id tunnel) = false ->
  receive_payload out tunnel s =
  Returned tt
    (with_log (log_ s ++ [Received_non_sequential_packet last (id tunnel)]) s).
Proof.
  intros L V. unfold receive_payload, bind at 1.
  rewrite ValidateID_spec, V. run. cbn. rewrite L. reflexivity.
Qed.

Lemma receive_payload_no_payload out tunnel s :
  expected_id s (id tunnel) = true ->
  opt_payload tunnel = None ->
  receive_payload out tunnel s =
  Returned tt (with_last_ack_id (Some (id tunnel)) s).
Proof.
  intros V P. unfold receive_payload, bind at 1.
  rewrite ValidateID_spec, V. unfold has_payload. rewrite P. reflexivity.
Qed.

Lemma receive_payload_fragment out tunnel s p :
  expected_id s (id tunnel) = true ->
  opt_payload tunnel = Some p ->
  remaining_bytes tunnel <> 0 ->
  receive_payload out tunnel s =
  Returned tt
    (with_frame_buffer (frame_buffer_ s ++ p)
       (with_last_ack_id (Some (id tunnel)) s)).
Proof.
  intros V P R. unfold receive_payload, bind at 1.
  rewrite ValidateID_spec, V. unfold has_payload, payload. rewrite P.
  apply Z.eqb_neq in R. cbn [negb]. run. rewrite R. reflexivity.
Qed.

Lemma receive_payload_last_fragment out tunnel s p :
  expected_id s (id tunnel) = true ->
  opt_payload tunnel = Some p ->
  remaining_bytes tunnel = 0 ->
  receive_payload out tunnel s =
  Returned tt
    (with_log
       (log_ s
        ++ [Writing_bytes_to_the_tunnel
              (Z.of_nat (length (frame_buffer_ s ++ p)))]
        ++ (if bytes_written out <? 0 then [Failed_to_write_to_tunnel]
            else []))
       (with_written (written_ s ++ [frame_buffer_ s ++ p])
          (with_frame_buffer []
             (with_last_ack_id (Some (id tunnel)) s)))).
Proof.
  intros V P R. unfold receive_payload, bind at 1.
  rewrite ValidateID_spec, V. unfold has_payload, payload. rewrite P, R.
  cbn [negb]. run. cbn [Z.eqb].
  destruct s; fields.
  destruct (bytes_written out <? 0); rewrite ?app_nil_r, <- ?app_assoc;
    reflexivity.
Qed.

(** The receive side always returns; it leaves [last_ack_id_] present and
    does not touch the send side of the endpoint. *)
Lemma receive_payload_frame out tunnel s :
  exists s1,
    receive_payload out tunnel s = Returned tt s1 /\
    last_ack_id_ s1 <> None /\
    (last_ack_id_ s = None -> last_ack_id_ s1 = Some (id tunnel)) /\
    next_id_ s1 = next_id_ s /\
    read_buffer_ s1 = read_buffer_ s /\
    payload_in_flight_ s1 = payload_in_flight_ s /\
    sent_ s1 = sent_ s.
Proof.
  destruct (expected_id s (id tunnel)) eqn:V.
  - destruct (opt_payload tunnel) as [p |] eqn:P.
    + destruct (Z.eq_dec (remaining_bytes tunnel) 0) as [R | R].
      * eexists. split; [exact (receive_payload_last_fragment out tunnel s p V P R) |].
        cbn. repeat split; congruence.
      * eexists. split; [exact (receive_payload_fragment out tunnel s p V P R) |].
        cbn. repeat split; congruence.
    + eexists. split; [exact (receive_payload_no_payload out tunnel s V P) |].
      cbn. repeat split; congruence.
  - destruct (last_ack_id_ s) as [last |] eqn:L.
    + eexists. split; [exact (receive_payload_invalid out tunnel s last L V) |].
      cbn. repeat split; congruence.
    + unfold expected_id in V. rewrite L in V. discriminate.
Qed.

(** *** The acknowledgement side *)

Lemma process_ack_absent tunnel s :
  opt_ack_id tunnel = None ->
  process_ack tunnel s = Returned tt s.
Proof.
  intros A. unfold process_ack, has_ack_id. rewrite A. reflexivity.
Qed.

Lemma process_ack_mismatch tunnel s a :
  opt_ack_id tunnel = Some a ->
  a <> next_id_ s ->
  process_ack tunnel s =
  Returned tt (with_log (log_ s ++ [Primary_radio_failed_to_ack]) s).
Proof.
  intros A N. unfold process_ack, has_ack_id, ack_id. rewrite A. run.
  apply Z.eqb_neq in N. rewrite N. reflexivity.
Qed.

Lemma process_ack_match tunnel s :
  opt_ack_id tunnel = Some (next_id_ s) ->
  process_ack tunnel s =
  Returned tt
    (if payload_in_flight_ s
     then with_payload_in_flight false
            (with_read_buffer (erase_transmitted (read_buffer_ s))
               (with_next_id (Int.to_u32 (next_id_ s + 1)) s))
     else with_next_id (Int.to_u32 (next_id_ s + 1)) s).
Proof.
  intros A. unfold process_ack, has_ack_id, ack_id. rewrite A. run.
  rewrite Z.eqb_refl. cbn.
  destruct (payload_in_flight_ s); reflexivity.
Qed.

(** The acknowledgement side always returns and does not touch the receive
    side of the endpoint. *)
Lemma process_ack_frame tunnel s :
  exists s2,
    process_ack tunnel s = Returned tt s2 /\
    last_ack_id_ s2 = last_ack_id_ s /\
    frame_buffer_ s2 = frame_buffer_ s /\
    written_ s2 = written_ s /\
    sent_ s2 = sent_ s.
Proof.
  destruct (opt_ack_id tunnel) as [a |] eqn:A.
  - destruct (Z.eq_dec a (next_id_ s)) as [-> | N].
    + eexists. split; [exact (process_ack_match tunnel s A) |].
      destruct (payload_in_flight_ s); cbn; auto.
    + eexists. split; [exact (process_ack_mismatch tunnel s a A N) |].
      cbn; auto.
  - eexists. split; [exact (process_ack_absent tunnel s A) |]. auto.
Qed.

(** What the acknowledgement side does, in one statement. *)
Lemma process_ack_summary tunnel s :
  exists s2,
    process_ack tunnel s = Returned tt s2 /\
    next_id_ s2 =
      (if acknowledges tunnel s then Int.to_u32 (next_id_ s + 1)
       else next_id_ s) /\
    read_buffer_ s2 =
      (if acknowledges tunnel s && payload_in_flight_ s
       then erase_transmitted (read_buffer_ s) else read_buffer_ s) /\
    payload_in_flight_ s2 =
      payload_in_flight_ s && negb (acknowledges tunnel s) /\
    last_ack_id_ s2 = last_ack_id_ s /\
    frame_buffer_ s2 = frame_buffer_ s /\
    written_ s2 = written_ s /\
    sent_ s2 = sent_ s /\
    exists lines, log_ s2 = log_ s ++ lines.
Proof.
  unfold acknowledges.
  destruct (opt_ack_id tunnel) as [a |] eqn:A.
  - destruct (Z.eqb_spec a (next_id_ s)) as [-> | N].
    + eexists. split; [exact (process_ack_match tunnel s A) |].
      destruct (payload_in_flight_ s) eqn:F; cbn; rewrite ?F;
        conjuncts; try reflexivity; exists []; now rewrite app_nil_r.
    + eexists. split; [exact (process_ack_mismatch tunnel s a A N) |].
      cbn. rewrite andb_true_r.
      conjuncts; try reflexivity; eauto.
  - eexists. split; [exact (process_ack_absent tunnel s A) |].
    cbn. rewrite andb_true_r.
    conjuncts; try reflexivity; exists []; now rewrite app_nil_r.
Qed.

(** *** The composition of the response *)

Lemma compose_response_empty s last :
  last_ack_id_ s = Some last ->
  read_buffer_ s = [] ->
  compose_response s =
  Returned
    (ResponseNetworkTunnelTxrx
       {| opt_id := Some (next_id_ s); opt_ack_id := Some last;
          opt_payload := None; opt_remaining_bytes := None |})
    s.
Proof.
  intros L B. unfold compose_response. run. rewrite L, B. reflexivity.
Qed.

Lemma compose_response_front s last frame rest :
  last_ack_id_ s = Some last ->
  read_buffer_ s = frame :: rest ->
  compose_response s =
  Returned
    (ResponseNetworkTunnelTxrx
       {| opt_id := Some (next_id_ s); opt_ack_id := Some last;
          opt_payload := Some (firstn (transfer_size_of frame) frame);
          opt_remaining_bytes :=
            Some (Int.to_u32
                    (Z.of_nat (length frame - transfer_size_of frame))) |})
    (with_payload_in_flight true s).
Proof.
  intros L B. unfold compose_response. run. rewrite L, B. reflexivity.
Qed.

(** With [last_ack_id_] present the composition returns a tunnel response
    with the endpoint's [next_id_] and [last_ack_id_]; of the endpoint it
    touches [payload_in_flight_] alone. *)
Lemma compose_response_frame s last :
  last_ack_id_ s = Some last ->
  exists tunnel_response s3,
    compose_response s =
    Returned (ResponseNetworkTunnelTxrx tunnel_response) s3 /\
    opt_id tunnel_response = Some (next_id_ s) /\
    opt_ack_id tunnel_response = Some last /\
    s3 = (match read_buffer_ s with
          | [] => s
          | _ :: _ => with_payload_in_flight true s
          end).
Proof.
  intros L. destruct (read_buffer_ s) as [| frame rest] eqn:B.
  - eexists _, _. split; [exact (compose_response_empty s last L B) |]. auto.
  - eexists _, _. split;
      [exact (compose_response_front s last frame rest L B) |].
    auto.
Qed.

(** *** The handler as the sequence of its parts *)

Lemma HandleNetworkTunnelTxRx_missing out tunnel s :
  missing_tunnel_fields s tunnel = true ->
  HandleNetworkTunnelTxRx out tunnel s =
  Returned tt (with_log (log_ s ++ [Missing_tunnel_fields]) s).
Proof.
  intros Mi. unfold HandleNetworkTunnelTxRx. unfold bind at 1, read at 1.
  rewrite Mi. reflexivity.
Qed.

Lemma HandleNetworkTunnelTxRx_parts out tunnel s :
  missing_tunnel_fields s tunnel = false ->
  exists s1 s2 s3 tunnel_response,
    receive_payload out tunnel s = Returned tt s1 /\
    process_ack tunnel s1 = Returned tt s2 /\
    compose_response s2 =
    Returned (ResponseNetworkTunnelTxrx tunnel_response) s3 /\
    HandleNetworkTunnelTxRx out tunnel s =
    Returned tt
      (with_log
         (log_ s3
          ++ (if negb (RequestResult_eqb (send_status out) Success)
              then [Failed_to_send_network_tunnel_txrx_response] else []))
         (with_sent (sent_ s3 ++ [ResponseNetworkTunnelTxrx tunnel_response])
            s3)).
Proof.
  intros Mi.
  destruct (receive_payload_frame out tunnel s) as (s1 & R1 & L1 & _).
  destruct (process_ack_frame tunnel s1) as (s2 & R2 & L2 & _).
  destruct (last_ack_id_ s1) as [last |] eqn:L; [| congruence].
  destruct (compose_response_frame s2 last L2) as (tr & s3 & R3 & _).
  exists s1, s2, s3, tr. repeat split; try assumption.
  unfold HandleNetworkTunnelTxRx. unfold bind at 1, read at 1.
  rewrite Mi. unfold bind at 1. rewrite R1.
  unfold bind at 1. rewrite R2.
  unfold bind at 1. rewrite R3.
  run.
  destruct (negb (RequestResult_eqb (send_status out) Success));
    cbn; rewrite ?app_nil_r; destruct s3; reflexivity.
Qed.

Lemma acknowledges_next_id tunnel s s1 :
  next_id_ s1 = next_id_ s ->
  acknowledges tunnel s1 = acknowledges tunnel s.
Proof. intros E. unfold acknowledges. now rewrite E. Qed.

(** A request with its fields present is answered: what the handler leaves
    behind, in terms of the state [s1] after the receive side. *)
Lemma HandleNetworkTunnelTxRx_accepted out tunnel s :
  missing_tunnel_fields s tunnel = false ->
  exists s1 s' tunnel_response last,
    receive_payload out tunnel s = Returned tt s1 /\
    HandleNetworkTunnelTxRx out tunnel s = Returned tt s' /\
    sent_ s' = sent_ s ++ [ResponseNetworkTunnelTxrx tunnel_response] /\
    last_ack_id_ s1 = Some last /\
    last_ack_id_ s' = Some last /\
    frame_buffer_ s' = frame_buffer_ s1 /\
    written_ s' = written_ s1 /\
    (exists lines, log_ s' = log_ s1 ++ lines) /\
    next_id_ s' =
      (if acknowledges tunnel s then Int.to_u32 (next_id_ s + 1)
       else next_id_ s) /\
    read_buffer_ s' =
      (if acknowledges tunnel s && payload_in_flight_ s
       then erase_transmitted (read_buffer_ s) else read_buffer_ s) /\
    payload_in_flight_ s' =
      (match read_buffer_ s' with
       | [] => payload_in_flight_ s && negb (acknowledges tunnel s)
       | _ :: _ => true
       end) /\
    opt_id tunnel_response = Some (next_id_ s') /\
    opt_ack_id tunnel_response = Some last /\
    opt_payload tunnel_response =
      (match read_buffer_ s' with
       | [] => None
       | frame :: _ => Some (firstn (transfer_size_of frame) frame)
       end) /\
    opt_remaining_bytes tunnel_response =
      (match read_buffer_ s' with
       | [] => None
       | frame :: _ =>
           Some (Int.to_u32
                   (Z.of_nat (length frame - transfer_size_of frame)))
       end).
Proof.
  intros Mi.
  destruct (HandleNetworkTunnelTxRx_parts out tunnel s Mi)
    as (s1 & s2 & s3 & tr & R1 & R2 & R3 & H).
  destruct (receive_payload_frame out tunnel s)
    as (s1' & R1' & L1 & _ & N1 & B1 & F1 & S1).
  rewrite R1 in R1'. injection R1' as <-.
  destruct (process_ack_summary tunnel s1)
    as (s2' & R2' & N2 & B2 & F2 & L2 & FB2 & W2 & S2 & lines & G2).
  rewrite R2 in R2'. injection R2' as <-.
  rewrite (acknowledges_next_id tunnel s s1 N1), N1, B1, F1 in *.
  destruct (last_ack_id_ s1) as [last |] eqn:L; [| congruence].
  exists s1. eexists. exists tr, last.
  split; [exact R1 |]. split; [exact H |].
  destruct (read_buffer_ s2) as [| frame rest] eqn:B.
  - rewrite (compose_response_empty s2 last L2 B) in R3.
    injection R3 as <- <-. cbn.
    rewrite B, <- B2, <- N2, F2, S2, S1, L2, FB2, W2, G2, <- app_assoc.
    conjuncts; try reflexivity; [exact L | eauto].
  - rewrite (compose_response_front s2 last frame rest L2 B) in R3.
    injection R3 as <- <-. cbn.
    rewrite B, <- B2, <- N2, S2, S1, L2, FB2, W2, G2, <- app_assoc.
    conjuncts; try reflexivity; [exact L | eauto].
Qed.

(** No handler throws. *)
Lemma HandleNetworkTunnelTxRx_returns out tunnel s :
  exists s', HandleNetworkTunnelTxRx out tunnel s = Returned tt s'.
Proof.
  destruct (missing_tunnel_fields s tunnel) eqn:Mi.
  - eexists. exact (HandleNetworkTunnelTxRx_missing out tunnel s Mi).
  - destruct (HandleNetworkTunnelTxRx_accepted out tunnel s Mi)
      as (_ & s' & _ & _ & _ & H & _).
    eauto.
Qed.

Lemma HandlePing_run out ping s :
  HandlePing out ping s =
  Returned tt
    (with_log
       (log_ s ++ [Responding_to_ping_request]
        ++ (if negb (RequestResult_eqb (send_status out) Success)
            then [Failed_to_send_ping_response] else []))
       (with_sent (sent_ s ++ [ResponsePing {| opt_value := opt_value ping |}])
          s)).
Proof.
  unfold HandlePing, has_value, value, set_value, empty_ping. run.
  destruct s, ping as [[v |]]; fields;
    destruct (negb (RequestResult_eqb (send_status out) Success));
    rewrite ?app_nil_r, <- ?app_assoc; reflexivity.
Qed.

(** *** Ping *)

(** C7. For every Ping request handled by the secondary, one Ping response
    is handed to [Send]; its value field is present iff the request's value
    field is present, and when present it equals the request's value. The
    members of the endpoint are left as they were. *)
Theorem HandlePing_echoes_value
  (out : Outside) (ping : Ping) (s : Endpoint) :
  exists ping_response s',
    HandlePing out ping s = Returned tt s' /\
    sent_ s' = sent_ s ++ [ResponsePing ping_response] /\
    (has_value ping_response = true <-> has_value ping = true) /\
    opt_value ping_response = opt_value ping /\
    value ping_response = value ping /\
    members s' = members s.
Proof.
  exists {| opt_value := opt_value ping |}. eexists.
  split; [apply HandlePing_run |].
  unfold has_value, value. cbn.
  conjuncts; try reflexivity; tauto.
Qed.

(** *** Missing fields *)

(** C6. A NetworkTunnelTxRx request without the id field, or without the
    ack_id field while the secondary's [last_ack_id] is established, is
    logged as malformed, no response is handed to [Send], and no member of
    the endpoint is modified. A request with an id and without an ack_id is
    answered iff the secondary has no [last_ack_id]. *)
Theorem request_with_missing_fields_is_dropped
  (out : Outside) (tunnel : NetworkTunnelTxRx) (s : Endpoint) :
  (opt_id tunnel = None \/
   (opt_ack_id tunnel = None /\ last_ack_id_ s <> None) ->
   exists s',
     HandleNetworkTunnelTxRx out tunnel s = Returned tt s' /\
     log_ s' = log_ s ++ [Missing_tunnel_fields] /\
     sent_ s' = sent_ s /\
     written_ s' = written_ s /\
     members s' = members s) /\
  (opt_id tunnel <> None -> opt_ack_id tunnel = None ->
   (responds out tunnel s <-> last_ack_id_ s = None)).
Proof.
  split.
  - intros Hmissing.
    assert (Mi : missing_tunnel_fields s tunnel = true).
    { unfold missing_tunnel_fields, has_id, has_ack_id.
      destruct Hmissing as [-> | [-> L]]; [reflexivity |].
      destruct (last_ack_id_ s); [| congruence].
      apply orb_true_r. }
    eexists. split; [exact (HandleNetworkTunnelTxRx_missing out tunnel s Mi) |].
    cbn. auto.
  - intros I A. split.
    + intros (s' & response & H & S).
      destruct (last_ack_id_ s) as [last |] eqn:L; [exfalso | reflexivity].
      assert (Mi : missing_tunnel_fields s tunnel = true).
      { unfold missing_tunnel_fields, has_ack_id. rewrite L, A.
        apply orb_true_r. }
      rewrite (HandleNetworkTunnelTxRx_missing out tunnel s Mi) in H.
      injection H as <-. cbn in S.
      apply (f_equal (@length _)) in S. rewrite length_app in S.
      cbn in S. lia.
    + intros L.
      assert (Mi : missing_tunnel_fields s tunnel = false).
      { unfold missing_tunnel_fields, has_id. rewrite L.
        destruct (opt_id tunnel); [reflexivity | congruence]. }
      destruct (HandleNetworkTunnelTxRx_accepted out tunnel s Mi)
        as (_ & s' & tr & _ & _ & H & S & _).
      exists s', (ResponseNetworkTunnelTxrx tr). auto.
Qed.

Lemma request_with_missing_fields_is_dropped_witness :
  (exists s',
     HandleNetworkTunnelTxRx outside_ok
       request_5_without_ack waiting_for_ack_of_7 = Returned tt s' /\
     log_ s' = log_ waiting_for_ack_of_7 ++ [Missing_tunnel_fields] /\
     sent_ s' = sent_ waiting_for_ack_of_7 /\
     written_ s' = written_ waiting_for_ack_of_7 /\
     members s' = members waiting_for_ack_of_7) /\
  (responds outside_ok request_0_first_fragment SecondaryRadioInterface <->
   last_ack_id_ SecondaryRadioInterface = None).
Proof.
  split.
  - apply (proj1 (request_with_missing_fields_is_dropped outside_ok _ _)).
    right. split; [reflexivity | discriminate].
  - apply (proj2 (request_with_missing_fields_is_dropped outside_ok _ _)).
    + discriminate.
    + reflexivity.
Defined.

(** *** The acknowledgement carried by the response *)

(** C10. For every NetworkTunnelTxRx request that passes the missing-field
    check, the handler returns without a fault of the optional access:
    [last_ack_id] is present when the response is composed (on the first
    message ever it is the received id), and the response handed to [Send]
    carries [ack_id] equal to the endpoint's [last_ack_id]. *)
Theorem response_carries_last_ack_id
  (out : Outside) (tunnel : NetworkTunnelTxRx) (s : Endpoint)
  (Hfields : missing_tunnel_fields s tunnel = false) :
  exists s' tunnel_response last,
    HandleNetworkTunnelTxRx out tunnel s = Returned tt s' /\
    sent_ s' = sent_ s ++ [ResponseNetworkTunnelTxrx tunnel_response] /\
    last_ack_id_ s' = Some last /\
    opt_ack_id tunnel_response = Some last /\
    (last_ack_id_ s = None -> last = id tunnel).
Proof.
  destruct (HandleNetworkTunnelTxRx_accepted out tunnel s Hfields)
    as (s1 & s' & tr & last & R1 & H & S & L1 & L' & _ & _ & _ & _ & _ & _
        & _ & A & _).
  exists s', tr, last. conjuncts; try assumption.
  intros L.
  destruct (receive_payload_frame out tunnel s) as (s1' & R1' & _ & F & _).
  rewrite R1 in R1'. injection R1' as <-.
  specialize (F L). congruence.
Qed.

Lemma response_carries_last_ack_id_witness :
  missing_tunnel_fields SecondaryRadioInterface request_0_first_fragment
  = false /\
  exists s' tunnel_response last,
    HandleNetworkTunnelTxRx outside_ok request_0_first_fragment
      SecondaryRadioInterface = Returned tt s' /\
    sent_ s' =
      sent_ SecondaryRadioInterface
      ++ [ResponseNetworkTunnelTxrx tunnel_response] /\
    last_ack_id_ s' = Some last /\
    opt_ack_id tunnel_response = Some last /\
    (last_ack_id_ SecondaryRadioInterface = None ->
     last = id request_0_first_fragment).
Proof.
  split; [reflexivity |].
  apply response_carries_last_ack_id. reflexivity.
Defined.

(** *** A request out of sequence *)

(** C1, as amended. For every NetworkTunnelTxRx request that passes the
    missing-field check and whose id fails the validity check, the message is
    logged and its payload effects are skipped: [frame_buffer] and
    [last_ack_id] are unchanged and nothing is written to the tunnel. A
    response is still produced, carrying [ack_id = last_ack_id]. The
    acknowledgement in the request is processed all the same: [next_id], the
    read buffer and [payload_in_flight] are those that the acknowledgement
    side and the composition of the response leave. *)
Theorem out_of_sequence_request_skips_payload
  (out : Outside) (tunnel : NetworkTunnelTxRx) (s : Endpoint) (last : Z)
  (Hfields : missing_tunnel_fields s tunnel = false)
  (Hlast : last_ack_id_ s = Some last)
  (Hid : id tunnel <> Int.to_u32 (last + 1)) :
  exists s' tunnel_response,
    HandleNetworkTunnelTxRx out tunnel s = Returned tt s' /\
    In (Received_non_sequential_packet last (id tunnel)) (log_ s') /\
    frame_buffer_ s' = frame_buffer_ s /\
    written_ s' = written_ s /\
    last_ack_id_ s' = Some last /\
    sent_ s' = sent_ s ++ [ResponseNetworkTunnelTxrx tunnel_response] /\
    opt_ack_id tunnel_response = Some last /\
    opt_id tunnel_response = Some (next_id_ s') /\
    next_id_ s' =
      (if acknowledges tunnel s then Int.to_u32 (next_id_ s + 1)
       else next_id_ s) /\
    read_buffer_ s' =
      (if acknowledges tunnel s && payload_in_flight_ s
       then erase_transmitted (read_buffer_ s) else read_buffer_ s) /\
    payload_in_flight_ s' =
      (match read_buffer_ s' with
       | [] => payload_in_flight_ s && negb (acknowledges tunnel s)
       | _ :: _ => true
       end).
Proof.
  assert (V : expected_id s (id tunnel) = false).
  { unfold expected_id. rewrite Hlast. now apply Z.eqb_neq. }
  destruct (HandleNetworkTunnelTxRx_accepted out tunnel s Hfields)
    as (s1 & s' & tr & last' & R1 & H & S & L1 & L' & FB & W & (lines & G)
        & N & B & F & I & A & _).
  rewrite (receive_payload_invalid out tunnel s last Hlast V) in R1.
  injection R1 as <-. cbn in L1, FB, W, G.
  assert (last' = last) by congruence. subst last'.
  exists s', tr. conjuncts; try assumption.
  rewrite G. apply in_or_app. left. apply in_or_app. right. now left.
Qed.

Lemma out_of_sequence_request_skips_payload_witness :
  missing_tunnel_fields waiting_for_ack_of_7 request_5_ack_7 = false /\
  last_ack_id_ waiting_for_ack_of_7 = Some 3 /\
  id request_5_ack_7 <> Int.to_u32 (3 + 1) /\
  exists s' tunnel_response,
    HandleNetworkTunnelTxRx outside_ok request_5_ack_7 waiting_for_ack_of_7
    = Returned tt s' /\
    In (Received_non_sequential_packet 3 (id request_5_ack_7)) (log_ s') /\
    frame_buffer_ s' = frame_buffer_ waiting_for_ack_of_7 /\
    written_ s' = written_ waiting_for_ack_of_7 /\
    last_ack_id_ s' = Some 3 /\
    sent_ s' =
      sent_ waiting_for_ack_of_7
      ++ [ResponseNetworkTunnelTxrx tunnel_response] /\
    opt_ack_id tunnel_response = Some 3 /\
    opt_id tunnel_response = Some (next_id_ s') /\
    next_id_ s' =
      (if acknowledges request_5_ack_7 waiting_for_ack_of_7
       then Int.to_u32 (next_id_ waiting_for_ack_of_7 + 1)
       else next_id_ waiting_for_ack_of_7) /\
    read_buffer_ s' =
      (if acknowledges request_5_ack_7 waiting_for_ack_of_7
          && payload_in_flight_ waiting_for_ack_of_7
       then erase_transmitted (read_buffer_ waiting_for_ack_of_7)
       else read_buffer_ waiting_for_ack_of_7) /\
    payload_in_flight_ s' =
      (match read_buffer_ s' with
       | [] => payload_in_flight_ waiting_for_ack_of_7
               && negb (acknowledges request_5_ack_7 waiting_for_ack_of_7)
       | _ :: _ => true
       end).
Proof.
  assert (Hid : id request_5_ack_7 <> Int.to_u32 (3 + 1))
    by (vm_compute; discriminate).
  split; [reflexivity |]. split; [reflexivity |]. split; [exact Hid |].
  exact (out_of_sequence_request_skips_payload outside_ok request_5_ack_7
           waiting_for_ack_of_7 3 eq_refl eq_refl Hid).
Defined.

(** C1, as stated, fails. The secondary has accepted id 3 and waits for the
    acknowledgement of its id 7; the request has id 5, out of sequence, and
    acknowledges 7. It passes the missing-field check and fails the validity
    check, and yet [next_id] advances, the acknowledged chunk leaves the read
    buffer and [payload_in_flight] is cleared. *)
Lemma out_of_sequence_request_is_still_acknowledged :
  missing_tunnel_fields waiting_for_ack_of_7 request_5_ack_7 = false /\
  expected_id waiting_for_ack_of_7 (id request_5_ack_7) = false /\
  exists s',
    HandleNetworkTunnelTxRx outside_ok request_5_ack_7 waiting_for_ack_of_7
    = Returned tt s' /\
    next_id_ waiting_for_ack_of_7 = 7 /\ next_id_ s' = 8 /\
    read_buffer_ waiting_for_ack_of_7 = [IJKLM] /\ read_buffer_ s' = [] /\
    payload_in_flight_ waiting_for_ack_of_7 = true /\
    payload_in_flight_ s' = false.
Proof.
  split; [reflexivity |]. split; [reflexivity |].
  eexists. split; [reflexivity |].
  cbn. conjuncts; reflexivity.
Qed.

(** *** An acknowledgement of another id *)

(** C2, as amended. For every NetworkTunnelTxRx message received with an
    ack_id that differs from the endpoint's [next_id], the acknowledgement
    side of the handler logs the failed acknowledgement and changes no
    member of the endpoint. Over the whole handler [next_id] and the read
    buffer with its front datagram are unchanged, and [payload_in_flight] is
    never cleared: a request that is dropped for a missing field leaves it
    as it is, and for a request with its fields present the composition of
    the response sets it when the read buffer holds a datagram, so it is
    true afterwards iff it was true or a datagram waits. The response
    carries the same id and the same leading chunk of the same front
    datagram again. *)
Theorem mismatched_ack_retains_fragment
  (out : Outside) (tunnel : NetworkTunnelTxRx) (s : Endpoint) (a : Z)
  (Hack : opt_ack_id tunnel = Some a)
  (Hmismatch : a <> next_id_ s) :
  (exists s2,
     process_ack tunnel s = Returned tt s2 /\
     members s2 = members s /\
     log_ s2 = log_ s ++ [Primary_radio_failed_to_ack] /\
     sent_ s2 = sent_ s /\
     written_ s2 = written_ s) /\
  (exists s',
     HandleNetworkTunnelTxRx out tunnel s = Returned tt s' /\
     next_id_ s' = next_id_ s /\
     read_buffer_ s' = read_buffer_ s /\
     (payload_in_flight_ s = true -> payload_in_flight_ s' = true) /\
     payload_in_flight_ s' =
       (if missing_tunnel_fields s tunnel then payload_in_flight_ s
        else match read_buffer_ s with
             | [] => payload_in_flight_ s
             | _ :: _ => true
             end) /\
     (missing_tunnel_fields s tunnel = false ->
      exists tunnel_response,
        sent_ s' = sent_ s ++ [ResponseNetworkTunnelTxrx tunnel_response] /\
        opt_id tunnel_response = Some (next_id_ s) /\
        opt_payload tunnel_response =
          (match read_buffer_ s with
           | [] => None
           | D :: _ => Some (firstn (Nat.min (length D) 8) D)
           end))).
Proof.
  assert (K : acknowledges tunnel s = false).
  { unfold acknowledges. rewrite Hack. now apply Z.eqb_neq. }
  split.
  - eexists. split; [exact (process_ack_mismatch tunnel s a Hack Hmismatch) |].
    cbn. auto.
  - destruct (missing_tunnel_fields s tunnel) eqn:Mi.
    + eexists.
      split; [exact (HandleNetworkTunnelTxRx_missing out tunnel s Mi) |].
      cbn. conjuncts; auto. discriminate.
    + destruct (HandleNetworkTunnelTxRx_accepted out tunnel s Mi)
        as (s1 & s' & tr & last & _ & H & S & _ & _ & _ & _ & _
            & N & B & F & I & _ & P & _).
      rewrite K in N, B, F. cbn in B, F. rewrite andb_true_r in F.
      exists s'. conjuncts; try assumption.
      * intros T. rewrite F, T. now destruct (read_buffer_ s').
      * now rewrite F, B.
      * intros _. exists tr. rewrite <- B, <- N. auto.
Qed.

Lemma mismatched_ack_retains_fragment_witness :
  opt_ack_id request_1_no_payload = Some 0 /\
  0 <> next_id_ waiting_for_ack_of_7 /\
  exists s',
    HandleNetworkTunnelTxRx outside_ok request_1_no_payload
      waiting_for_ack_of_7 = Returned tt s' /\
    next_id_ s' = next_id_ waiting_for_ack_of_7 /\
    read_buffer_ s' = read_buffer_ waiting_for_ack_of_7 /\
    (payload_in_flight_ waiting_for_ack_of_7 = true ->
     payload_in_flight_ s' = true) /\
    payload_in_flight_ s' =
      (if missing_tunnel_fields waiting_for_ack_of_7 request_1_no_payload
       then payload_in_flight_ waiting_for_ack_of_7
       else match read_buffer_ waiting_for_ack_of_7 with
            | [] => payload_in_flight_ waiting_for_ack_of_7
            | _ :: _ => true
            end) /\
    (missing_tunnel_fields waiting_for_ack_of_7 request_1_no_payload = false ->
     exists tunnel_response,
       sent_ s' =
         sent_ waiting_for_ack_of_7
         ++ [ResponseNetworkTunnelTxrx tunnel_response] /\
       opt_id tunnel_response = Some (next_id_ waiting_for_ack_of_7) /\
       opt_payload tunnel_response =
         (match read_buffer_ waiting_for_ack_of_7 with
          | [] => None
          | D :: _ => Some (firstn (Nat.min (length D) 8) D)
          end)).
Proof.
  assert (Hmismatch : 0 <> next_id_ waiting_for_ack_of_7)
    by (cbn; discriminate).
  split; [reflexivity |]. split; [exact Hmismatch |].
  exact (proj2 (mismatched_ack_retains_fragment outside_ok
                  request_1_no_payload waiting_for_ack_of_7 0
                  eq_refl Hmismatch)).
Defined.

(** C2, as stated, fails for [payload_in_flight]. The secondary has sent
    nothing of the datagram that waits in its read buffer; a request whose
    ack_id, 6, differs from [next_id], 7, leaves [next_id] and the read
    buffer as they are, and [payload_in_flight] goes from false to true,
    because the response carries the first chunk of the datagram. *)
Lemma mismatched_ack_sets_payload_in_flight :
  opt_ack_id request_4_ack_6 = Some 6 /\
  6 <> next_id_ datagram_waiting /\
  missing_tunnel_fields datagram_waiting request_4_ack_6 = false /\
  exists s' tunnel_response,
    HandleNetworkTunnelTxRx outside_ok request_4_ack_6 datagram_waiting
    = Returned tt s' /\
    sent_ s' = [ResponseNetworkTunnelTxrx tunnel_response] /\
    opt_payload tunnel_response = Some IJKLM /\
    next_id_ s' = next_id_ datagram_waiting /\
    read_buffer_ s' = read_buffer_ datagram_waiting /\
    payload_in_flight_ datagram_waiting = false /\
    payload_in_flight_ s' = true.
Proof.
  split; [reflexivity |]. split; [cbn; discriminate |].
  split; [reflexivity |].
  eexists _, _. split; [reflexivity |].
  cbn. conjuncts; reflexivity.
Qed.

(** *** An acknowledgement of [next_id] *)

Lemma erase_transmitted_front (D : list byte) rest :
  erase_transmitted (D :: rest) =
  if (length D <=? 8)%nat then rest
  else skipn (Nat.min 8 (length D)) D :: rest.
Proof.
  unfold erase_transmitted, transfer_size_of.
  destruct (Nat.leb_spec (length D) 8) as [Le | Gt].
  - rewrite Nat.min_l by exact Le. now rewrite skipn_all.
  - rewrite Nat.min_r, Nat.min_l by lia.
    destruct (skipn 8 D) eqn:E; [| reflexivity].
    apply (f_equal (@length _)) in E. rewrite length_skipn in E.
    cbn in E. lia.
Qed.

Lemma HandleRequest_returns out request s :
  exists s', HandleRequest out request s = Returned tt s'.
Proof.
  destruct request as [| ping | tunnel]; cbn [HandleRequest].
  - eexists. reflexivity.
  - eexists. apply HandlePing_run.
  - apply HandleNetworkTunnelTxRx_returns.
Qed.

(** C3, as amended. A received NetworkTunnelTxRx message, with its fields
    present, that carries [ack_id] equal to the endpoint's [next_id] advances
    [next_id] by one modulo 2^32, whether or not a payload is in flight. When
    [payload_in_flight] is true the acknowledgement side also erases the
    transmitted chunk, the first min(8, |D|) bytes, from the front datagram
    [D] of the read buffer, pops [D] if it became empty, and clears
    [payload_in_flight]; otherwise the read buffer is left alone. Whatever
    the request, [next_id] changes in no case other than such an
    acknowledgement of [next_id]. *)
Theorem next_id_advances_iff_acknowledged
  (out : Outside) (s : Endpoint) :
  (forall tunnel,
     opt_ack_id tunnel = Some (next_id_ s) ->
     exists s2,
       process_ack tunnel s = Returned tt s2 /\
       next_id_ s2 = Int.to_u32 (next_id_ s + 1) /\
       payload_in_flight_ s2 = false /\
       (payload_in_flight_ s = false -> read_buffer_ s2 = read_buffer_ s) /\
       (payload_in_flight_ s = true ->
        read_buffer_ s = [] -> read_buffer_ s2 = []) /\
       (payload_in_flight_ s = true ->
        forall D rest,
          read_buffer_ s = D :: rest ->
          read_buffer_ s2 =
            if (length D <=? 8)%nat then rest
            else skipn (Nat.min 8 (length D)) D :: rest)) /\
  (forall request,
     exists s',
       HandleRequest out request s = Returned tt s' /\
       (next_id_ s' = next_id_ s \/
        next_id_ s' = Int.to_u32 (next_id_ s + 1)) /\
       (next_id_ s' <> next_id_ s <->
        exists tunnel,
          request = kNetworkTunnelTxrx tunnel /\
          missing_tunnel_fields s tunnel = false /\
          opt_ack_id tunnel = Some (next_id_ s))).
Proof.
  split.
  - intros tunnel A.
    destruct (process_ack_summary tunnel s)
      as (s2 & R & N & B & F & _).
    assert (K : acknowledges tunnel s = true).
    { unfold acknowledges. rewrite A. apply Z.eqb_refl. }
    rewrite K in N, B, F. cbn in B. rewrite andb_false_r in F.
    exists s2. conjuncts; try assumption.
    + intros T. now rewrite T in B.
    + intros T E. now rewrite T, E in B.
    + intros T D rest E. rewrite T, E in B.
      now rewrite erase_transmitted_front in B.
  - intros [| ping | tunnel]; cbn [HandleRequest].
    + eexists. split; [reflexivity |]. cbn. split; [now left |].
      split; [congruence | intros (t & E & _); discriminate].
    + eexists. split; [apply HandlePing_run |]. cbn. split; [now left |].
      split; [congruence | intros (t & E & _); discriminate].
    + destruct (missing_tunnel_fields s tunnel) eqn:Mi.
      * eexists.
        split; [exact (HandleNetworkTunnelTxRx_missing out tunnel s Mi) |].
        cbn. split; [now left |].
        split; [congruence |].
        intros (t & E & Mt & _). injection E as <-. congruence.
      * destruct (HandleNetworkTunnelTxRx_accepted out tunnel s Mi)
          as (_ & s' & _ & _ & _ & H & _ & _ & _ & _ & _ & _ & N & _).
        exists s'. split; [exact H |].
        unfold acknowledges in N.
        destruct (opt_ack_id tunnel) as [a |] eqn:A.
        -- destruct (Z.eqb_spec a (next_id_ s)) as [-> | M].
           ++ split; [now right |]. split.
              ** intros _. exists tunnel. auto.
              ** intros _. rewrite N. apply to_u32_succ_neq.
           ++ split; [now left |]. split; [congruence |].
              intros (t & E & _ & A'). injection E as <-. congruence.
        -- split; [now left |]. split; [congruence |].
           intros (t & E & _ & A'). injection E as <-. congruence.
Qed.

Lemma next_id_advances_iff_acknowledged_witness :
  opt_ack_id request_5_ack_7 = Some (next_id_ waiting_for_ack_of_7) /\
  exists s2,
    process_ack request_5_ack_7 waiting_for_ack_of_7 = Returned tt s2 /\
    next_id_ s2 = Int.to_u32 (next_id_ waiting_for_ack_of_7 + 1) /\
    payload_in_flight_ s2 = false /\
    read_buffer_ s2 = [].
Proof.
  split; [reflexivity |].
  destruct (proj1 (next_id_advances_iff_acknowledged outside_ok
                     waiting_for_ack_of_7) request_5_ack_7 eq_refl)
    as (s2 & R & N & F & _ & _ & B).
  exists s2. conjuncts; try assumption.
  exact (B eq_refl IJKLM [] eq_refl).
Defined.

(** C3, as stated, fails in its last part. In the second request of a
    session the primary acknowledges id 0 while the secondary has no payload
    in flight, and [next_id] advances from 0 to 1. *)
Lemma next_id_advances_without_payload_in_flight :
  HandleNetworkTunnelTxRx outside_ok request_0_first_fragment
    SecondaryRadioInterface = Returned tt after_first_fragment /\
  payload_in_flight_ after_first_fragment = false /\
  next_id_ after_first_fragment = 0 /\
  exists s2 s',
    process_ack request_1_no_payload after_first_fragment
    = Returned tt s2 /\
    next_id_ s2 = 1 /\
    HandleNetworkTunnelTxRx outside_ok request_1_no_payload
      after_first_fragment = Returned tt s' /\
    next_id_ s' = 1.
Proof.
  split; [reflexivity |]. split; [reflexivity |]. split; [reflexivity |].
  eexists _, _. split; [reflexivity |]. split; [reflexivity |].
  split; reflexivity.
Qed.

(** *** Fragmentation *)

(** C4. Whenever a NetworkTunnelTxRx response is composed and the read buffer
    is not empty, with front datagram [D] shorter than 2^32 bytes, the
    payload of the message is exactly the first min(8, |D|) bytes of [D], its
    remaining_bytes is |D| minus the length of the payload,
    [payload_in_flight] is set to true, and the chunk stays in [D]: the read
    buffer and every other member are as before. *)
Theorem composed_response_carries_front_chunk
  (s : Endpoint) (D : list byte) (rest : list (list byte)) (last : Z)
  (Hfront : read_buffer_ s = D :: rest)
  (Hlast : last_ack_id_ s = Some last)
  (Hlength : Z.of_nat (length D) < 2 ^ 32) :
  exists tunnel_response s',
    compose_response s =
    Returned (ResponseNetworkTunnelTxrx tunnel_response) s' /\
    has_payload tunnel_response = true /\
    payload tunnel_response = firstn (Nat.min 8 (length D)) D /\
    length (payload tunnel_response) = Nat.min 8 (length D) /\
    remaining_bytes tunnel_response =
      Z.of_nat (length D) - Z.of_nat (length (payload tunnel_response)) /\
    payload tunnel_response
    ++ skipn (length (payload tunnel_response)) D = D /\
    payload_in_flight_ s' = true /\
    read_buffer_ s' = D :: rest /\
    s' = with_payload_in_flight true s.
Proof.
  eexists _, _.
  split; [exact (compose_response_front s last D rest Hlast Hfront) |].
  unfold has_payload, payload, remaining_bytes, transfer_size_of. cbn.
  rewrite (Nat.min_comm (length D) 8).
  assert (Len : length (firstn (Nat.min 8 (length D)) D)
                = Nat.min 8 (length D)).
  { rewrite length_firstn. lia. }
  rewrite Len.
  conjuncts; try reflexivity.
  - rewrite to_u32_small by (unfold Int.is_u32; lia). lia.
  - apply firstn_skipn.
  - exact Hfront.
Qed.

Lemma composed_response_carries_front_chunk_witness :
  read_buffer_ waiting_for_ack_of_7 = [IJKLM] /\
  last_ack_id_ waiting_for_ack_of_7 = Some 3 /\
  Z.of_nat (length IJKLM) < 2 ^ 32 /\
  exists tunnel_response s',
    compose_response waiting_for_ack_of_7 =
    Returned (ResponseNetworkTunnelTxrx tunnel_response) s' /\
    has_payload tunnel_response = true /\
    payload tunnel_response = firstn (Nat.min 8 (length IJKLM)) IJKLM /\
    length (payload tunnel_response) = Nat.min 8 (length IJKLM) /\
    remaining_bytes tunnel_response =
      Z.of_nat (length IJKLM) - Z.of_nat (length (payload tunnel_response)) /\
    payload tunnel_response
    ++ skipn (length (payload tunnel_response)) IJKLM = IJKLM /\
    payload_in_flight_ s' = true /\
    read_buffer_ s' = [IJKLM] /\
    s' = with_payload_in_flight true waiting_for_ack_of_7.
Proof.
  assert (Hlength : Z.of_nat (length IJKLM) < 2 ^ 32) by (cbn; lia).
  split; [reflexivity |]. split; [reflexivity |]. split; [exact Hlength |].
  exact (composed_response_carries_front_chunk waiting_for_ack_of_7
           IJKLM [] 3 eq_refl eq_refl Hlength).
Defined.

(** *** Reassembly *)

(** C5, as amended. On the receive side, for every valid incoming
    NetworkTunnelTxRx message with its fields present: if it carries a
    payload, the payload is appended to [frame_buffer], and if moreover the
    remaining_bytes of the message is 0, [frame_buffer] is written to the
    tunnel and cleared. A message without a payload leaves [frame_buffer] as
    it is and writes nothing, whatever its remaining_bytes. *)
Theorem valid_payload_is_reassembled
  (out : Outside) (tunnel : NetworkTunnelTxRx) (s : Endpoint)
  (Hfields : missing_tunnel_fields s tunnel = false)
  (Hvalid : expected_id s (id tunnel) = true) :
  exists s',
    HandleNetworkTunnelTxRx out tunnel s = Returned tt s' /\
    match opt_payload tunnel with
    | Some p =>
        if remaining_bytes tunnel =? 0
        then frame_buffer_ s' = [] /\
             written_ s' = written_ s ++ [frame_buffer_ s ++ p]
        else frame_buffer_ s' = frame_buffer_ s ++ p /\
             written_ s' = written_ s
    | None =>
        frame_buffer_ s' = frame_buffer_ s /\ written_ s' = written_ s
    end.
Proof.
  destruct (HandleNetworkTunnelTxRx_accepted out tunnel s Hfields)
    as (s1 & s' & _ & _ & R1 & H & _ & _ & _ & FB & W & _).
  exists s'. split; [exact H |].
  rewrite FB, W.
  destruct (opt_payload tunnel) as [p |] eqn:P.
  - destruct (Z.eqb_spec (remaining_bytes tunnel) 0) as [R | R].
    + rewrite (receive_payload_last_fragment out tunnel s p Hvalid P R) in R1.
      injection R1 as <-. cbn. auto.
    + rewrite (receive_payload_fragment out tunnel s p Hvalid P R) in R1.
      injection R1 as <-. cbn. auto.
  - rewrite (receive_payload_no_payload out tunnel s Hvalid P) in R1.
    injection R1 as <-. cbn. auto.
Qed.

Lemma valid_payload_is_reassembled_witness :
  missing_tunnel_fields after_first_fragment request_1_last_fragment
  = false /\
  expected_id after_first_fragment 1 = true /\
  exists s',
    HandleNetworkTunnelTxRx outside_ok request_1_last_fragment
      after_first_fragment = Returned tt s' /\
    frame_buffer_ s' = [] /\
    written_ s' = [ABCDEFGH ++ IJKLM].
Proof.
  split; [reflexivity |]. split; [reflexivity |].
  exact (valid_payload_is_reassembled outside_ok request_1_last_fragment
           after_first_fragment eq_refl eq_refl).
Defined.

(** C5, as stated, fails. After the first fragment of a datagram the
    secondary receives a valid message without a payload whose
    remaining_bytes is 0: [frame_buffer] is neither written to the tunnel
    nor cleared. *)
Lemma message_without_payload_does_not_flush :
  HandleNetworkTunnelTxRx outside_ok request_0_first_fragment
    SecondaryRadioInterface = Returned tt after_first_fragment /\
  missing_tunnel_fields after_first_fragment request_1_no_payload = false /\
  expected_id after_first_fragment (id request_1_no_payload) = true /\
  remaining_bytes request_1_no_payload = 0 /\
  exists s',
    HandleNetworkTunnelTxRx outside_ok request_1_no_payload
      after_first_fragment = Returned tt s' /\
    frame_buffer_ s' = ABCDEFGH /\
    written_ s' = [].
Proof.
  conjuncts; try reflexivity.
  eexists. conjuncts; reflexivity.
Qed.

(** *** The scenarios of the specification *)

(** S1: the two fragments arrive in sequence and the tunnel receives exactly
    [ABCDEFGHIJKLM], in one write. *)
Example scenario_S1 :
  exists s',
    Run [(Success, kNetworkTunnelTxrx request_0_first_fragment, outside_ok);
         (Success, kNetworkTunnelTxrx request_1_last_fragment, outside_ok)]
      SecondaryRadioInterface = Returned tt s' /\
    written_ s' = [ABCDEFGH ++ IJKLM] /\
    frame_buffer_ s' = [] /\
    length (sent_ s') = 2%nat.
Proof. eexists. conjuncts; reflexivity. Qed.

(** S5, to the letter: the request [{id=5}] has no ack_id while
    [last_ack_id] is 3, so it is dropped for its missing field before the
    validity check, and nothing is sent. *)
Example scenario_S5 :
  exists s',
    HandleNetworkTunnelTxRx outside_ok request_5_without_ack
      waiting_for_ack_of_7 = Returned tt s' /\
    sent_ s' = [] /\
    log_ s' = [Missing_tunnel_fields].
Proof. eexists. conjuncts; reflexivity. Qed.

End Handlers.

(** * Further properties *)

(** ** The encoding *)

Lemma little_endian_of_value bs :
  Forall Int.is_u8 bs ->
  EncodeDecode.little_endian (length bs) (EncodeDecode.little_endian_value bs)
  = bs.
Proof.
  induction 1 as [| b bs Hb _ IH]; [reflexivity |].
  cbn [length EncodeDecode.little_endian EncodeDecode.little_endian_value].
  unfold Int.is_u8 in Hb.
  replace ((b + 256 * EncodeDecode.little_endian_value bs) mod 256) with b.
  - replace ((b + 256 * EncodeDecode.little_endian_value bs) / 256)
      with (EncodeDecode.little_endian_value bs).
    + now rewrite IH.
    + rewrite Z.mul_comm, Z.div_add by lia.
      rewrite Z.div_small by lia. reflexivity.
  - rewrite Z.mul_comm, Z.mod_add by lia.
    rewrite Z.mod_small by lia. reflexivity.
Qed.

Lemma little_endian_value_range bs :
  Forall Int.is_u8 bs ->
  0 <= EncodeDecode.little_endian_value bs < 256 ^ Z.of_nat (length bs).
Proof.
  induction 1 as [| b bs Hb _ IH].
  - cbn. lia.
  - cbn [length EncodeDecode.little_endian_value].
    rewrite Nat2Z.inj_succ, Z.pow_succ_r by lia.
    unfold Int.is_u8 in Hb. lia.
Qed.

(** X1. Every string of four bytes is the encoding of a 32-bit value, the
    one it denotes least-significant byte first: [EncodeValue] maps the
    32-bit values onto the four-byte strings. *)
Theorem EncodeValue_of_four_bytes (bs : list Z)
  (Hlength : length bs = 4%nat)
  (Hbytes : Forall Int.is_u8 bs) :
  Int.is_u32 (EncodeDecode.little_endian_value bs) /\
  EncodeDecode.EncodeValue (EncodeDecode.little_endian_value bs) = bs.
Proof.
  split.
  - pose proof (little_endian_value_range bs Hbytes) as R.
    rewrite Hlength in R. exact R.
  - rewrite EncodeValue_little_endian, <- Hlength.
    now apply little_endian_of_value.
Qed.

Lemma EncodeValue_of_four_bytes_witness :
  length [239; 190; 173; 222] = 4%nat /\
  Forall Int.is_u8 [239; 190; 173; 222] /\
  EncodeDecode.EncodeValue 3735928559 = [239; 190; 173; 222].
Proof.
  assert (Hbytes : Forall Int.is_u8 [239; 190; 173; 222])
    by (repeat constructor; unfold Int.is_u8; lia).
  split; [reflexivity |]. split; [exact Hbytes |].
  exact (proj2 (EncodeValue_of_four_bytes [239; 190; 173; 222]
                  eq_refl Hbytes)).
Defined.

(** X2. [EncodeValue] is one-to-one on the 32-bit values: two values with the
    same encoding are equal. *)
Theorem EncodeValue_injective (v w : Z)
  (Hv : Int.is_u32 v) (Hw : Int.is_u32 w)
  (Hsame : EncodeDecode.EncodeValue v = EncodeDecode.EncodeValue w) :
  v = w.
Proof.
  rewrite <- (little_endian_value_inv 4 v Hv).
  rewrite <- (little_endian_value_inv 4 w Hw).
  rewrite <- !EncodeValue_little_endian. now rewrite Hsame.
Qed.

Lemma EncodeValue_injective_witness :
  Int.is_u32 7 /\ Int.is_u32 (3 + 4) /\ 7 = 3 + 4.
Proof.
  assert (H7 : Int.is_u32 7) by (unfold Int.is_u32; lia).
  assert (H34 : Int.is_u32 (3 + 4)) by (unfold Int.is_u32; lia).
  split; [exact H7 |]. split; [exact H34 |].
  exact (EncodeValue_injective 7 (3 + 4) H7 H34 eq_refl).
Defined.

(** ** The mock link *)

Section MockReplay.

Import MockLink.

Context {Frame : Type}.

Variable script : list (ReceiveResult.t * Frame).

(** A call below the end of the script replays the entry it stands on. *)
Lemma Receive_replays count frame entry :
  nth_error script count = Some entry ->
  Receive script count frame =
  (fst entry, S count,
   if ReceiveResult.eqb (fst entry) ReceiveResult.SUCCESS
   then snd entry else frame).
Proof.
  intros N. unfold Receive.
  assert (L : (count < length script)%nat)
    by (apply nth_error_Some; congruence).
  destruct (Nat.leb_spec (length script) count); [lia |].
  now rewrite N.
Qed.

(** A call at or beyond the end of the script changes nothing. *)
Lemma Receive_exhausted count frame :
  (length script <= count)%nat ->
  Receive script count frame = (ReceiveResult.NOT_READY, count, frame).
Proof.
  intros L. unfold Receive.
  destruct (Nat.leb_spec (length script) count); [reflexivity | lia].
Qed.

Lemma Receives_exhausted calls : forall count frame,
  (length script <= count)%nat ->
  Receives script calls count frame =
  (repeat ReceiveResult.NOT_READY calls, count, frame).
Proof.
  induction calls as [| calls IH]; intros count frame L; [reflexivity |].
  cbn [Receives repeat]. rewrite (Receive_exhausted count frame L).
  now rewrite (IH count frame L).
Qed.

Lemma Receives_from calls : forall count frame,
  (count <= length script)%nat ->
  Receives script calls count frame =
  (firstn calls (map fst (skipn count script))
   ++ repeat ReceiveResult.NOT_READY (calls - (length script - count)),
   Nat.min (count + calls) (length script),
   last_received (firstn calls (skipn count script)) frame).
Proof.
  induction calls as [| calls IH]; intros count frame L.
  - cbn. rewrite Nat.add_0_r, Nat.min_l by exact L. reflexivity.
  - destruct (nth_error script count) as [entry |] eqn:N.
    + assert (Lt : (count < length script)%nat)
        by (apply nth_error_Some; congruence).
      cbn [Receives]. rewrite (Receive_replays count frame entry N).
      rewrite IH by lia.
      assert (E : skipn count script = entry :: skipn (S count) script).
      { rewrite <- (firstn_skipn count script) in N at 1.
        rewrite nth_error_app2 in N by (rewrite length_firstn; lia).
        rewrite length_firstn, Nat.min_l, Nat.sub_diag in N by lia.
        destruct (skipn count script) as [| e rest] eqn:K;
          [discriminate |].
        cbn in N. injection N as ->.
        change (S count) with (1 + count)%nat.
        rewrite <- skipn_skipn, K. reflexivity. }
      rewrite E. cbn [map firstn app last_received fold_left].
      replace (S calls - (length script - count))%nat
        with (calls - (length script - S count))%nat by lia.
      replace (count + S calls)%nat with (S count + calls)%nat by lia.
      reflexivity.
    + apply nth_error_None in N.
      assert (count = length script) by lia. subst count.
      rewrite (Receives_exhausted (S calls) _ frame (le_n _)).
      rewrite skipn_all. cbn [map]. rewrite !firstn_nil.
      cbn [app last_received fold_left].
      rewrite Nat.sub_diag, Nat.sub_0_r, Nat.min_r by lia. reflexivity.
Qed.

End MockReplay.

(** X4. The mock link replays its script of receive results: the first
    [calls] invocations of [Receive] since the constructor return the first
    [calls] scripted results in order and [NOT_READY] for every call beyond
    the end of the script; the counter stops at the size of the script; and
    the frame handed out is that of the last scripted success replayed, or
    the caller's own when there was none. *)
Theorem Receive_replays_script
  (Frame : Type) (script : list (MockLink.ReceiveResult.t * Frame))
  (calls : nat) (frame : Frame) :
  MockLink.Receives script calls 0 frame =
  (firstn calls (map fst script)
   ++ repeat MockLink.ReceiveResult.NOT_READY (calls - length script),
   Nat.min calls (length script),
   MockLink.last_received (firstn calls script) frame).
Proof.
  rewrite (Receives_from script calls 0 frame) by lia.
  cbn [skipn]. rewrite Nat.sub_0_r. reflexivity.
Qed.

Section BeaconRuns.

Import MockLink.

Variable config : Config.

Hypothesis pattern_not_empty : beacon_result_pattern config <> [].
Hypothesis interval_not_negative : 0 <= beacon_interval_us config.

(** The result of a beacon is the entry of the pattern that its number
    selects. *)
Lemma Beacon_result now st result st' :
  Beacon config now st = Some (result, st') ->
  nth_error (beacon_result_pattern config)
    (Z.to_nat (beacon_count_ st
               mod Z.of_nat (length (beacon_result_pattern config))))
  = Some result.
Proof.
  unfold Beacon.
  set (ge := EXPECT_GE _ _). set (lt := EXPECT_LT _ _).
  destruct (expect_members ge st) as (_ & C1 & _).
  destruct (expect_members lt (expect ge st)) as (_ & C2 & _).
  destruct (_ =? 0); [discriminate |].
  rewrite C2, C1.
  destruct (nth_error _ _); [| discriminate].
  intros E. now injection E as -> _.
Qed.

(** The expected time of the beacon whose number is [c] modulo 2^64. *)
Lemma expected_beacon_time st c :
  Int.to_u64 (beacon_count_ st) = Int.to_u64 c ->
  0 <= c ->
  c * beacon_interval_us config + 10000 < 2 ^ 64 ->
  Int.to_u64 (beacon_count_ st * beacon_interval_us config)
  = c * beacon_interval_us config.
Proof.
  intros E Hc Hfits. unfold Int.to_u64 in *.
  rewrite <- Z.mul_mod_idemp_l, E, Z.mul_mod_idemp_l by lia.
  apply Z.mod_small. nia.
Qed.

(** A run of beacons has a result; it adds to the failures, and it adds
    nothing iff every beacon was on schedule. *)
Lemma beacons_failures clock : forall st c,
  Int.to_u64 (beacon_count_ st) = Int.to_u64 c ->
  0 <= c ->
  (c + Z.of_nat (length clock)) * beacon_interval_us config + 10000
    < 2 ^ 64 ->
  exists st' more,
    beacons config clock st = Some st' /\
    failures_ st' = failures_ st ++ more /\
    (more = [] <->
     forall (k : nat) now,
       nth_error clock k = Some now ->
       on_schedule config (c + Z.of_nat k) (RelativeTimeUs now st)).
Proof.
  induction clock as [| now later IH]; intros st c E Hc Hfits.
  - exists st, []. cbn [beacons]. rewrite app_nil_r.
    split; [reflexivity |]. split; [reflexivity |].
    split; [| reflexivity].
    intros _ [| k] t N; discriminate.
  - cbn [length] in Hfits. rewrite Nat2Z.inj_succ in Hfits.
    destruct (Beacon_total config now st pattern_not_empty)
      as (result & st1 & B).
    pose proof (Beacon_step config now st result st1 B) as (S1 & C1).
    pose proof (Beacon_failures config now st result st1 B) as F1.
    cbn zeta in F1.
    rewrite (expected_beacon_time st c E Hc) in F1 by nia.
    rewrite (to_u64_small (c * _ + 10000)) in F1
      by (unfold Int.is_u64; nia).
    destruct (IH st1 (c + 1)) as (st' & more & R & F & I).
    { rewrite C1. unfold Int.to_u64 in *.
      rewrite Z.mod_mod by lia.
      rewrite <- Z.add_mod_idemp_l, E, Z.add_mod_idemp_l by lia.
      reflexivity. }
    { lia. }
    { nia. }
    exists st'. eexists.
    split; [cbn [beacons]; rewrite B; exact R |].
    split; [rewrite F, F1, <- !app_assoc; reflexivity |].
    assert (T : forall t, RelativeTimeUs t st1 = RelativeTimeUs t st)
      by (intros t; unfold RelativeTimeUs; now rewrite S1).
    split.
    + intros Nil.
      apply app_eq_nil in Nil. destruct Nil as (N1 & Nil).
      apply app_eq_nil in Nil. destruct Nil as (N2 & ->).
      intros [| k] t N.
      * cbn in N. injection N as <-. unfold on_schedule.
        rewrite Z.add_0_r.
        destruct (Z.leb_spec (c * beacon_interval_us config)
                    (RelativeTimeUs now st)); [| discriminate].
        destruct (Z.ltb_spec (RelativeTimeUs now st)
                    (c * beacon_interval_us config + 10000));
          [lia | discriminate].
      * cbn [nth_error] in N.
        pose proof (proj1 I eq_refl k t N) as O.
        rewrite T in O.
        now replace (c + Z.of_nat (S k)) with (c + 1 + Z.of_nat k) by lia.
    + intros All.
      pose proof (All 0%nat now eq_refl) as O. unfold on_schedule in O.
      rewrite Z.add_0_r in O.
      destruct (Z.leb_spec (c * beacon_interval_us config)
                  (RelativeTimeUs now st)); [| lia].
      destruct (Z.ltb_spec (RelativeTimeUs now st)
                  (c * beacon_interval_us config + 10000)); [| lia].
      cbn [app]. apply I. intros k t N. rewrite T.
      replace (c + 1 + Z.of_nat k) with (c + Z.of_nat (S k)) by lia.
      now apply All.
Qed.

End BeaconRuns.

(** X5. The results of the beacons cycle through the configured pattern,
    whatever the clock says: the beacon numbered [n] since the constructor,
    with [n] below 2^64, returns entry [n mod size] of a pattern that is not
    empty, and moves the counter to [n + 1]. *)
Theorem Beacon_results_cycle
  (config : MockLink.Config) (start : Z) (clock : list Z) (now : Z)
  (st : MockLink.State)
  (Hpattern : MockLink.beacon_result_pattern config <> [])
  (Hrun : MockLink.beacons config clock (MockLink.MockLink start) = Some st)
  (Hcount : Z.of_nat (length clock) < 2 ^ 64) :
  exists result st',
    MockLink.Beacon config now st = Some (result, st') /\
    nth_error (MockLink.beacon_result_pattern config)
      (length clock mod length (MockLink.beacon_result_pattern config))
    = Some result /\
    MockLink.beacon_count_ st' = Int.to_u64 (Z.of_nat (length clock) + 1).
Proof.
  destruct (Beacon_total config now st Hpattern) as (result & st' & B).
  exists result, st'. split; [exact B |].
  pose proof (beacons_count config clock _ _ Hrun) as (_ & C).
  cbn [MockLink.MockLink MockLink.beacon_count_] in C.
  assert (U : Int.is_u64 (MockLink.beacon_count_ st)).
  { apply (beacons_count_u64 config clock _ _) in Hrun; [exact Hrun |].
    cbn. unfold Int.is_u64. lia. }
  rewrite (to_u64_small _ U), Z.add_0_l in C.
  rewrite to_u64_small in C by (unfold Int.is_u64; lia).
  split.
  - apply Beacon_result in B. rewrite C in B.
    rewrite <- Nat2Z.inj_mod, Nat2Z.id in B. exact B.
  - apply Beacon_step in B. destruct B as (_ & B). now rewrite B, C.
Qed.

Lemma Beacon_results_cycle_witness :
  MockLink.beacons Claims.every_100ms [0] (MockLink.MockLink 0)
  = Some Claims.after_one_beacon /\
  exists result st',
    MockLink.Beacon Claims.every_100ms 500000 Claims.after_one_beacon
    = Some (result, st') /\
    nth_error [MockLink.SUCCESS] (1 mod 1) = Some result /\
    MockLink.beacon_count_ st' = Int.to_u64 (1 + 1).
Proof.
  assert (Hpattern :
    MockLink.beacon_result_pattern Claims.every_100ms <> [])
    by (cbn; discriminate).
  assert (Hcount : Z.of_nat (length [0]) < 2 ^ 64) by (cbn; lia).
  split; [reflexivity |].
  exact (Beacon_results_cycle Claims.every_100ms 0 [0] 500000
           Claims.after_one_beacon Hpattern eq_refl Hcount).
Defined.

(** X6. Beacons only ever add to the failed expectations, and they add
    nothing iff they are on schedule. After any beacons [before] since the
    constructor, a further run of beacons at the times [clock], with a
    pattern that is not empty and no expected time beyond 64 bits, always
    completes; the failures it leaves are the earlier ones followed by its
    own; and it adds none iff every beacon of the run is on schedule: iff
    the time of its [k]-th beacon, relative to the start, is in
    [[n * interval, n * interval + 10 ms)] for [n] the number of the beacon,
    [k] more than the beacons before. So a run from the constructor ends
    without a failure iff all of its beacons were on schedule. *)
Theorem beacons_pass_iff_all_on_schedule
  (config : MockLink.Config) (start : Z) (before clock : list Z)
  (st : MockLink.State)
  (Hpattern : MockLink.beacon_result_pattern config <> [])
  (Hinterval : 0 <= MockLink.beacon_interval_us config)
  (Hbefore :
     MockLink.beacons config before (MockLink.MockLink start) = Some st)
  (Hfits : (Z.of_nat (length before) + Z.of_nat (length clock))
           * MockLink.beacon_interval_us config + 10000 < 2 ^ 64) :
  exists st' more,
    MockLink.beacons config clock st = Some st' /\
    MockLink.failures_ st' = MockLink.failures_ st ++ more /\
    (more = [] <->
     forall (k : nat) now,
       nth_error clock k = Some now ->
       MockLink.on_schedule config
         (Z.of_nat (length before) + Z.of_nat k)
         (Int.to_u64 (now - start))) /\
    (MockLink.failures_ st' = [] <->
     MockLink.failures_ st = [] /\
     forall (k : nat) now,
       nth_error clock k = Some now ->
       MockLink.on_schedule config
         (Z.of_nat (length before) + Z.of_nat k)
         (Int.to_u64 (now - start))).
Proof.
  pose proof (beacons_count config before _ _ Hbefore) as (T & C).
  cbn [MockLink.MockLink MockLink.beacon_count_ MockLink.start_time_us_]
    in T, C.
  rewrite Z.add_0_l in C.
  destruct (beacons_failures config Hpattern Hinterval clock st
              (Z.of_nat (length before)) C)
    as (st' & more & R & F & I); [lia | exact Hfits |].
  unfold MockLink.RelativeTimeUs in I. rewrite T in I.
  exists st', more.
  split; [exact R |]. split; [exact F |]. split; [exact I |].
  rewrite F. split.
  - intros E. apply app_eq_nil in E. destruct E as (E1 & E2).
    split; [exact E1 |]. now apply I.
  - intros (E1 & All). rewrite E1. cbn [app]. now apply I.
Qed.

Lemma beacons_pass_iff_all_on_schedule_witness :
  MockLink.beacons Claims.every_100ms [0] (MockLink.MockLink 0)
  = Some Claims.after_one_beacon /\
  exists st' more,
    MockLink.beacons Claims.every_100ms [100500; 195000]
      Claims.after_one_beacon = Some st' /\
    MockLink.failures_ st'
    = MockLink.failures_ Claims.after_one_beacon ++ more /\
    (more = [] <->
     forall (k : nat) now,
       nth_error [100500; 195000] k = Some now ->
       MockLink.on_schedule Claims.every_100ms
         (Z.of_nat (length [0]) + Z.of_nat k)
         (Int.to_u64 (now - 0))) /\
    (MockLink.failures_ st' = [] <->
     MockLink.failures_ Claims.after_one_beacon = [] /\
     forall (k : nat) now,
       nth_error [100500; 195000] k = Some now ->
       MockLink.on_schedule Claims.every_100ms
         (Z.of_nat (length [0]) + Z.of_nat k)
         (Int.to_u64 (now - 0))).
Proof.
  assert (Hpattern :
    MockLink.beacon_result_pattern Claims.every_100ms <> [])
    by (cbn; discriminate).
  assert (Hinterval : 0 <= MockLink.beacon_interval_us Claims.every_100ms)
    by (cbn; lia).
  assert (Hfits :
    (Z.of_nat (length [0]) + Z.of_nat (length [100500; 195000]))
    * MockLink.beacon_interval_us Claims.every_100ms + 10000 < 2 ^ 64)
    by (cbn; lia).
  split; [reflexivity |].
  exact (beacons_pass_iff_all_on_schedule Claims.every_100ms 0
           [0] [100500; 195000] Claims.after_one_beacon
           Hpattern Hinterval eq_refl Hfits).
Defined.

(** ** Sessions of the secondary *)

Section Sessions.

Import Secondary Claims Session.
Local Open Scope handler_scope.

Ltac parts :=
  repeat match goal with |- _ /\ _ => split end.

Lemma Run_cons result request out later s :
  Run ((result, request, out) :: later) s =
  match (if RequestResult_eqb result Success
         then HandleRequest out request else ret tt) s with
  | Returned _ s1 => Run later s1
  | Thrown s1 => Thrown s1
  end.
Proof. reflexivity. Qed.

Lemma Run_app received later : forall s,
  Run (received ++ later) s =
  match Run received s with
  | Returned _ s1 => Run later s1
  | Thrown s1 => Thrown s1
  end.
Proof.
  induction received as [| [[result request] out] received IH]; intros s.
  - reflexivity.
  - cbn [app]. rewrite !Run_cons.
    destruct ((if RequestResult_eqb result Success
               then HandleRequest out request else ret tt) s);
      [apply IH | reflexivity].
Qed.

Lemma Run_tunnel_request out tunnel later s :
  Run (tunnel_requests out (tunnel :: later)) s =
  match HandleNetworkTunnelTxRx out tunnel s with
  | Returned _ s1 => Run (tunnel_requests out later) s1
  | Thrown s1 => Thrown s1
  end.
Proof. reflexivity. Qed.

Lemma fields_present s tunnel :
  opt_id tunnel <> None ->
  opt_ack_id tunnel <> None ->
  missing_tunnel_fields s tunnel = false.
Proof.
  intros I A. unfold missing_tunnel_fields, has_id, has_ack_id.
  destruct (opt_id tunnel); [| congruence].
  destruct (opt_ack_id tunnel); [| congruence].
  cbn. apply andb_false_r.
Qed.

(** The receive side writes to the tunnel at most once, and whether the
    write and the send succeed shows in the log alone. *)
Lemma receive_payload_outside out1 out2 tunnel s :
  exists s1 s2 data,
    receive_payload out1 tunnel s = Returned tt s1 /\
    receive_payload out2 tunnel s = Returned tt s2 /\
    last_ack_id_ s1 = last_ack_id_ s2 /\
    frame_buffer_ s1 = frame_buffer_ s2 /\
    written_ s1 = written_ s ++ data /\
    written_ s2 = written_ s ++ data /\
    (length data <= 1)%nat /\
    last_ack_id_ s1 =
      (if expected_id s (id tunnel) then Some (id tunnel)
       else last_ack_id_ s).
Proof.
  destruct (expected_id s (id tunnel)) eqn:V.
  - destruct (opt_payload tunnel) as [p |] eqn:P.
    + destruct (Z.eq_dec (remaining_bytes tunnel) 0) as [R | R].
      * eexists _, _, [_].
        split; [exact (receive_payload_last_fragment out1 tunnel s p V P R) |].
        split; [exact (receive_payload_last_fragment out2 tunnel s p V P R) |].
        cbn. parts; auto.
      * eexists _, _, [].
        split; [exact (receive_payload_fragment out1 tunnel s p V P R) |].
        split; [exact (receive_payload_fragment out2 tunnel s p V P R) |].
        cbn. rewrite app_nil_r. parts; auto.
    + eexists _, _, [].
      split; [exact (receive_payload_no_payload out1 tunnel s V P) |].
      split; [exact (receive_payload_no_payload out2 tunnel s V P) |].
      cbn. rewrite app_nil_r. parts; auto.
  - destruct (last_ack_id_ s) as [last |] eqn:L.
    + eexists _, _, [].
      split; [exact (receive_payload_invalid out1 tunnel s last L V) |].
      split; [exact (receive_payload_invalid out2 tunnel s last L V) |].
      cbn. rewrite app_nil_r. parts; auto.
    + unfold expected_id in V. rewrite L in V. discriminate.
Qed.

Lemma tunnel_message_eq (a b : NetworkTunnelTxRx) :
  opt_id a = opt_id b ->
  opt_ack_id a = opt_ack_id b ->
  opt_payload a = opt_payload b ->
  opt_remaining_bytes a = opt_remaining_bytes b ->
  a = b.
Proof. destruct a, b. cbn. intros -> -> -> ->. reflexivity. Qed.

(** One request, whatever it is: the handler returns, keeps the endpoint
    consistent, keeps [last_ack_id_] once it is there, sends at most one
    response and writes to the tunnel at most once. *)
Lemma HandleRequest_step out request s :
  exists s' responses data,
    HandleRequest out request s = Returned tt s' /\
    (consistent s -> consistent s') /\
    (last_ack_id_ s <> None -> last_ack_id_ s' <> None) /\
    sent_ s' = sent_ s ++ responses /\
    (length responses <= 1)%nat /\
    written_ s' = written_ s ++ data /\
    (length data <= 1)%nat.
Proof.
  destruct request as [| ping | tunnel]; cbn [HandleRequest].
  - eexists _, [], []. split; [reflexivity |].
    cbn. rewrite !app_nil_r. parts; auto.
  - eexists _, [_], []. split; [apply HandlePing_run |].
    cbn. rewrite !app_nil_r. parts; auto.
  - destruct (missing_tunnel_fields s tunnel) eqn:Mi.
    + eexists _, [], [].
      split; [exact (HandleNetworkTunnelTxRx_missing out tunnel s Mi) |].
      cbn. rewrite !app_nil_r. parts; auto.
    + destruct (HandleNetworkTunnelTxRx_accepted out tunnel s Mi)
        as (s1 & s' & tr & last & R1 & H & S & L1 & L' & FB & W & _
            & N & B & F & _).
      destruct (receive_payload_outside out out tunnel s)
        as (s1' & _ & data & R1' & _ & _ & _ & W1 & _ & D & _).
      rewrite R1 in R1'. injection R1' as <-.
      exists s', [ResponseNetworkTunnelTxrx tr], data.
      split; [exact H |]. parts; auto; try congruence.
      intros (U & C). split.
      * rewrite N. destruct (acknowledges tunnel s);
          [apply to_u32_range | exact U].
      * intros T E. rewrite E in F, B. rewrite T in F.
        destruct (acknowledges tunnel s) eqn:K;
          [now rewrite andb_false_r in F |].
        cbn in B. rewrite andb_true_r in F.
        symmetry in F. apply C in F. congruence.
Qed.

(** X7. The loop of the secondary never faults: whatever it receives, in
    whatever state, well-formed or not, no unguarded access to
    [last_ack_id_] throws, and every request is handled to its end. *)
Theorem Run_never_throws
  (received : list (RequestResult * Request * Outside)) (s : Endpoint) :
  exists s', Run received s = Returned tt s'.
Proof.
  revert s.
  induction received as [| [[result request] out] later IH]; intros s.
  - eexists. reflexivity.
  - rewrite Run_cons. destruct (RequestResult_eqb result Success).
    + destruct (HandleRequest_step out request s) as (s1 & _ & _ & H & _).
      rewrite H. apply IH.
    + apply IH.
Qed.

(** The loop over a finite prefix of receptions, with what it keeps and what
    it sends and writes. *)
Lemma Run_steps received : forall s,
  exists s' responses data,
    Run received s = Returned tt s' /\
    (consistent s -> consistent s') /\
    (last_ack_id_ s <> None -> last_ack_id_ s' <> None) /\
    sent_ s' = sent_ s ++ responses /\
    (length responses <= successes received)%nat /\
    written_ s' = written_ s ++ data /\
    (length data <= successes received)%nat.
Proof.
  induction received as [| [[result request] out] later IH]; intros s.
  - exists s, [], []. cbn. rewrite !app_nil_r. parts; auto.
  - rewrite Run_cons. unfold successes. cbn [filter fst].
    destruct (RequestResult_eqb result Success).
    + destruct (HandleRequest_step out request s)
        as (s1 & r1 & d1 & H & C1 & L1 & S1 & N1 & W1 & M1).
      rewrite H.
      destruct (IH s1) as (s' & r2 & d2 & R & C2 & L2 & S2 & N2 & W2 & M2).
      exists s', (r1 ++ r2), (d1 ++ d2).
      split; [exact R |]. unfold successes in N2, M2.
      rewrite S2, S1, W2, W1, <- !app_assoc, !length_app. cbn [length].
      parts; auto; lia.
    + destruct (IH s) as (s' & r2 & d2 & R & C2 & L2 & S2 & N2 & W2 & M2).
      exists s', r2, d2. cbn [ret]. parts; auto.
Qed.

(** X8. The handlers keep the endpoint consistent: from a state in which
    [next_id_] is a 32-bit value and a payload is in flight only while the
    read buffer holds a datagram, every run of the loop ends in such a
    state. *)
Theorem Run_keeps_endpoint_consistent
  (received : list (RequestResult * Request * Outside)) (s : Endpoint)
  (Hconsistent : consistent s) :
  exists s', Run received s = Returned tt s' /\ consistent s'.
Proof.
  destruct (Run_steps received s) as (s' & _ & _ & R & C & _).
  exists s'. auto.
Qed.

Lemma Run_keeps_endpoint_consistent_witness :
  consistent waiting_for_ack_of_7 /\
  exists s',
    Run [(Success, kNetworkTunnelTxrx request_5_ack_7, outside_ok)]
      waiting_for_ack_of_7 = Returned tt s' /\
    consistent s'.
Proof.
  assert (C : consistent waiting_for_ack_of_7).
  { split; [unfold Int.is_u32; cbn; lia | cbn; discriminate]. }
  split; [exact C |].
  exact (Run_keeps_endpoint_consistent
           [(Success, kNetworkTunnelTxrx request_5_ack_7, outside_ok)]
           waiting_for_ack_of_7 C).
Defined.

(** X9. The secondary speaks only when spoken to: over any run of the loop
    the responses handed to [Send] and the buffers written to the tunnel
    only grow, by at most one response and at most one write for each
    reception that succeeded, and by nothing for the others. *)
Theorem Run_answers_at_most_once
  (received : list (RequestResult * Request * Outside)) (s : Endpoint) :
  exists s' responses data,
    Run received s = Returned tt s' /\
    sent_ s' = sent_ s ++ responses /\
    (length responses <= successes received)%nat /\
    written_ s' = written_ s ++ data /\
    (length data <= successes received)%nat.
Proof.
  destruct (Run_steps received s)
    as (s' & responses & data & R & _ & _ & S & N & W & M).
  exists s', responses, data. auto.
Qed.

(** X10. In a consistent endpoint that has answered a tunnel request,
    [payload_in_flight_] says whether the response carried a payload: it is
    true iff the response has a payload, which is so iff the read buffer is
    not empty after the acknowledgement was processed. *)
Theorem payload_in_flight_iff_response_has_payload
  (out : Outside) (tunnel : NetworkTunnelTxRx) (s : Endpoint)
  (Hconsistent : consistent s)
  (Hfields : missing_tunnel_fields s tunnel = false) :
  exists s' tunnel_response,
    HandleNetworkTunnelTxRx out tunnel s = Returned tt s' /\
    sent_ s' = sent_ s ++ [ResponseNetworkTunnelTxrx tunnel_response] /\
    payload_in_flight_ s' = has_payload tunnel_response /\
    (has_payload tunnel_response = true <-> read_buffer_ s' <> []).
Proof.
  destruct (HandleNetworkTunnelTxRx_accepted out tunnel s Hfields)
    as (_ & s' & tr & _ & _ & H & S & _ & _ & _ & _ & _ & _ & B & F & _ & _
        & P & _).
  exists s', tr. split; [exact H |]. split; [exact S |].
  unfold has_payload. rewrite P, F.
  destruct Hconsistent as (_ & C).
  destruct (read_buffer_ s') as [| frame rest] eqn:E.
  - split; [| split; [discriminate | congruence]].
    destruct (acknowledges tunnel s); [apply andb_false_r |].
    cbn in B. rewrite andb_true_r.
    destruct (payload_in_flight_ s); [| reflexivity].
    exfalso. apply C; [reflexivity | congruence].
  - split; [reflexivity |]. split; [discriminate | reflexivity].
Qed.

Lemma payload_in_flight_iff_response_has_payload_witness :
  consistent waiting_for_ack_of_7 /\
  missing_tunnel_fields waiting_for_ack_of_7 request_5_ack_7 = false /\
  exists s' tunnel_response,
    HandleNetworkTunnelTxRx outside_ok request_5_ack_7 waiting_for_ack_of_7
    = Returned tt s' /\
    sent_ s' =
      sent_ waiting_for_ack_of_7
      ++ [ResponseNetworkTunnelTxrx tunnel_response] /\
    payload_in_flight_ s' = has_payload tunnel_response /\
    (has_payload tunnel_response = true <-> read_buffer_ s' <> []).
Proof.
  assert (C : consistent waiting_for_ack_of_7).
  { split; [unfold Int.is_u32; cbn; lia | cbn; discriminate]. }
  split; [exact C |]. split; [reflexivity |].
  exact (payload_in_flight_iff_response_has_payload outside_ok
           request_5_ack_7 waiting_for_ack_of_7 C eq_refl).
Defined.

(** X11. A failed write to the tunnel and a failed send are logged and
    change nothing else: whatever [write] and [Send] return, a request
    leaves the same members in the endpoint, the same buffers written to the
    tunnel and the same responses handed to [Send]. In particular the frame
    buffer is cleared after a failed write, and a response whose send failed
    is accounted as sent. *)
Theorem outside_failures_only_show_in_log
  (out1 out2 : Outside) (request : Request) (s : Endpoint) :
  exists s1 s2,
    HandleRequest out1 request s = Returned tt s1 /\
    HandleRequest out2 request s = Returned tt s2 /\
    members s1 = members s2 /\
    written_ s1 = written_ s2 /\
    sent_ s1 = sent_ s2.
Proof.
  destruct request as [| ping | tunnel]; cbn [HandleRequest].
  - eexists _, _. split; [reflexivity |]. split; [reflexivity |]. auto.
  - eexists _, _. split; [apply HandlePing_run |].
    split; [apply HandlePing_run |]. auto.
  - destruct (missing_tunnel_fields s tunnel) eqn:Mi.
    + eexists _, _.
      split; [exact (HandleNetworkTunnelTxRx_missing out1 tunnel s Mi) |].
      split; [exact (HandleNetworkTunnelTxRx_missing out2 tunnel s Mi) |].
      auto.
    + destruct (HandleNetworkTunnelTxRx_accepted out1 tunnel s Mi)
        as (a1 & s1 & tr1 & last1 & Ra & H1 & S1 & La & L1 & FB1 & W1 & _
            & N1 & B1 & F1 & I1 & A1 & P1 & M1).
      destruct (HandleNetworkTunnelTxRx_accepted out2 tunnel s Mi)
        as (a2 & s2 & tr2 & last2 & Rb & H2 & S2 & Lb & L2 & FB2 & W2 & _
            & N2 & B2 & F2 & I2 & A2 & P2 & M2).
      destruct (receive_payload_outside out1 out2 tunnel s)
        as (a1' & a2' & data & Ra' & Rb' & L & FB & Wa & Wb & _).
      rewrite Ra in Ra'. injection Ra' as <-.
      rewrite Rb in Rb'. injection Rb' as <-.
      assert (E : last1 = last2) by congruence. subst last2.
      assert (B : read_buffer_ s1 = read_buffer_ s2) by congruence.
      assert (N : next_id_ s1 = next_id_ s2) by congruence.
      assert (T : tr1 = tr2).
      { apply tunnel_message_eq; try congruence.
        - rewrite P1, P2, B. reflexivity.
        - rewrite M1, M2, B. reflexivity. }
      exists s1, s2. split; [exact H1 |]. split; [exact H2 |].
      unfold members. rewrite S1, S2, T, W1, W2, Wa, Wb, N, L1, L2, FB1, FB2,
        FB, B, F1, F2, B.
      auto.
Qed.

(** X12. A request that is handled a second time, as when the primary
    retransmits it, has its receive and acknowledgement effects once,
    whatever datagrams the tunnel reader appends to the read buffer between
    the two times. The second time the request is out of sequence and
    acknowledges nothing: [next_id], [last_ack_id] and the frame buffer do
    not change, nothing is written to the tunnel, the read buffer is the one
    the reader left, and the response carries the id and the ack_id of the
    first response. When the first response carried a payload, or no
    datagram arrived in between, the second response is the first one again
    and [payload_in_flight] is as it was. This holds for every request that
    carries an id and an ack_id. *)
Theorem retransmitted_request_is_answered_alike
  (out out' : Outside) (tunnel : NetworkTunnelTxRx) (s : Endpoint)
  (arrived : list (list byte))
  (Hid : opt_id tunnel <> None)
  (Hack : opt_ack_id tunnel <> None) :
  exists s1 s2 first second,
    HandleNetworkTunnelTxRx out tunnel s = Returned tt s1 /\
    sent_ s1 = sent_ s ++ [ResponseNetworkTunnelTxrx first] /\
    HandleNetworkTunnelTxRx out' tunnel (tunnel_reader arrived s1)
    = Returned tt s2 /\
    sent_ s2 = sent_ s1 ++ [ResponseNetworkTunnelTxrx second] /\
    next_id_ s2 = next_id_ s1 /\
    last_ack_id_ s2 = last_ack_id_ s1 /\
    frame_buffer_ s2 = frame_buffer_ s1 /\
    written_ s2 = written_ s1 /\
    read_buffer_ s2 = read_buffer_ s1 ++ arrived /\
    opt_id second = opt_id first /\
    opt_ack_id second = opt_ack_id first /\
    (has_payload first = true \/ arrived = [] ->
     second = first /\
     payload_in_flight_ s2 = payload_in_flight_ s1).
Proof.
  destruct (HandleNetworkTunnelTxRx_accepted out tunnel s
              (fields_present s tunnel Hid Hack))
    as (a1 & s1 & tr1 & last1 & Ra & H1 & S1 & La & L1 & FB1 & W1 & _
        & N1 & B1 & F1 & I1 & A1 & P1 & M1).
  set (s1r := tunnel_reader arrived s1).
  destruct (HandleNetworkTunnelTxRx_accepted out' tunnel s1r
              (fields_present s1r tunnel Hid Hack))
    as (a2 & s2 & tr2 & last2 & Rb & H2 & S2 & Lb & L2 & FB2 & W2 & _
        & N2 & B2 & F2 & I2 & A2 & P2 & M2).
  (* the second time the request acknowledges nothing *)
  assert (K : acknowledges tunnel s1r = false).
  { rewrite (acknowledges_next_id tunnel s1 s1r eq_refl).
    unfold acknowledges in *.
    destruct (opt_ack_id tunnel) as [a |]; [| reflexivity].
    apply Z.eqb_neq. rewrite N1.
    destruct (Z.eqb_spec a (next_id_ s)) as [-> | Ne].
    - intros E. symmetry in E. now apply to_u32_succ_neq in E.
    - exact Ne. }
  (* and it is out of sequence *)
  assert (V : expected_id s1r (id tunnel) = false).
  { destruct (receive_payload_outside out out tunnel s)
      as (a1' & _ & _ & Ra' & _ & _ & _ & _ & _ & _ & Lx).
    rewrite Ra in Ra'. injection Ra' as <-.
    unfold expected_id. cbn. rewrite L1.
    apply Z.eqb_neq.
    rewrite La in Lx.
    destruct (expected_id s (id tunnel)) eqn:V0.
    - injection Lx as ->. intros E. symmetry in E.
      now apply to_u32_succ_neq in E.
    - unfold expected_id in V0. rewrite <- Lx in V0.
      now apply Z.eqb_neq. }
  assert (L1r : last_ack_id_ s1r = Some last1) by exact L1.
  rewrite (receive_payload_invalid out' tunnel s1r last1 L1r V) in Rb.
  injection Rb as <-. cbn in Lb, FB2, W2.
  rewrite K in N2, B2, F2. cbn in N2, B2, F2. rewrite andb_true_r in F2.
  assert (E : last2 = last1) by congruence. subst last2.
  exists s1, s2, tr1, tr2.
  split; [exact H1 |]. split; [exact S1 |].
  split; [exact H2 |]. split; [exact S2 |].
  split; [exact N2 |]. split; [congruence |].
  split; [exact FB2 |]. split; [exact W2 |]. split; [exact B2 |].
  split; [congruence |]. split; [congruence |].
  intros Same.
  assert (Front :
    match read_buffer_ s1 with
    | [] => read_buffer_ s2 = []
    | frame :: rest => read_buffer_ s2 = frame :: rest ++ arrived
    end).
  { rewrite B2. destruct (read_buffer_ s1) as [| frame rest] eqn:R1.
    - destruct Same as [Has | ->]; [| reflexivity].
      unfold has_payload in Has. rewrite P1 in Has. discriminate.
    - reflexivity. }
  destruct (read_buffer_ s1) as [| frame rest] eqn:R1.
  - rewrite Front in P2, M2, F2. split; [| congruence].
    apply tunnel_message_eq; congruence.
  - rewrite Front in P2, M2, F2. split; [| congruence].
    apply tunnel_message_eq; congruence.
Qed.

Lemma retransmitted_request_is_answered_alike_witness :
  opt_id request_5_ack_7 <> None /\
  opt_ack_id request_5_ack_7 <> None /\
  exists s1 s2 first second,
    HandleNetworkTunnelTxRx outside_ok request_5_ack_7 sending_thirteen_bytes
    = Returned tt s1 /\
    sent_ s1 =
      sent_ sending_thirteen_bytes ++ [ResponseNetworkTunnelTxrx first] /\
    HandleNetworkTunnelTxRx outside_ok request_5_ack_7
      (tunnel_reader [ABCDEFGH] s1) = Returned tt s2 /\
    sent_ s2 = sent_ s1 ++ [ResponseNetworkTunnelTxrx second] /\
    next_id_ s2 = next_id_ s1 /\
    last_ack_id_ s2 = last_ack_id_ s1 /\
    frame_buffer_ s2 = frame_buffer_ s1 /\
    written_ s2 = written_ s1 /\
    read_buffer_ s2 = read_buffer_ s1 ++ [ABCDEFGH] /\
    opt_id second = opt_id first /\
    opt_ack_id second = opt_ack_id first /\
    (has_payload first = true \/ [ABCDEFGH] = [] ->
     second = first /\
     payload_in_flight_ s2 = payload_in_flight_ s1).
Proof.
  assert (Hid : opt_id request_5_ack_7 <> None) by (cbn; discriminate).
  assert (Hack : opt_ack_id request_5_ack_7 <> None) by (cbn; discriminate).
  split; [exact Hid |]. split; [exact Hack |].
  exact (retransmitted_request_is_answered_alike outside_ok outside_ok
           request_5_ack_7 sending_thirteen_bytes [ABCDEFGH] Hid Hack).
Defined.

(** *** Fragmentation over a session *)

Lemma firstn_transfer_size (frame : list byte) :
  firstn (transfer_size_of frame) frame = firstn 8 frame.
Proof.
  unfold transfer_size_of.
  destruct (Nat.le_ge_cases (length frame) 8) as [Le | Ge].
  - rewrite Nat.min_l by exact Le.
    now rewrite firstn_all, firstn_all2.
  - now rewrite Nat.min_r.
Qed.

Lemma firstn_plus {A : Type} (a b : nat) : forall l : list A,
  firstn (a + b) l = firstn a l ++ firstn b (skipn a l).
Proof.
  induction a as [| a IH]; intros l; [reflexivity |].
  destruct l as [| x l]; cbn [Nat.add firstn skipn app].
  - now rewrite firstn_nil.
  - now rewrite IH.
Qed.

Lemma to_u32_add_l a b : Int.to_u32 (Int.to_u32 a + b) = Int.to_u32 (a + b).
Proof. unfold Int.to_u32. now rewrite Z.add_mod_idemp_l by lia. Qed.

Lemma acknowledge_from_cons next_id tunnel later :
  Int.is_u32 next_id ->
  acknowledge_from next_id (tunnel :: later) ->
  opt_id tunnel <> None /\
  opt_ack_id tunnel = Some next_id /\
  acknowledge_from (Int.to_u32 (next_id + 1)) later.
Proof.
  intros U A.
  destruct (A 0%nat tunnel eq_refl) as (I & K).
  rewrite Z.add_0_r, (to_u32_small _ U) in K.
  split; [exact I |]. split; [exact K |].
  intros k t N. destruct (A (S k) t N) as (I' & K').
  split; [exact I' |]. rewrite K', to_u32_add_l. f_equal. f_equal. lia.
Qed.

(** One acknowledged request while more than one chunk of the front
    datagram is left: the chunk in flight goes, the next one is sent. *)
Lemma acknowledged_fragment out tunnel s D rest :
  payload_in_flight_ s = true ->
  read_buffer_ s = D :: rest ->
  opt_id tunnel <> None ->
  opt_ack_id tunnel = Some (next_id_ s) ->
  (8 < length D)%nat ->
  exists s' r,
    HandleNetworkTunnelTxRx out tunnel s = Returned tt s' /\
    sent_ s' = sent_ s ++ [ResponseNetworkTunnelTxrx r] /\
    next_id_ s' = Int.to_u32 (next_id_ s + 1) /\
    read_buffer_ s' = skipn 8 D :: rest /\
    payload_in_flight_ s' = true /\
    opt_id r = Some (Int.to_u32 (next_id_ s + 1)) /\
    opt_payload r = Some (firstn 8 (skipn 8 D)) /\
    opt_remaining_bytes r =
      Some (Int.to_u32
              (Z.of_nat (length D - 8 - Nat.min 8 (length D - 8)))).
Proof.
  intros Hflight Hfront Hid Hack Hlong.
  assert (Mi : missing_tunnel_fields s tunnel = false)
    by (apply fields_present; congruence).
  assert (K : acknowledges tunnel s = true)
    by (unfold acknowledges; rewrite Hack; apply Z.eqb_refl).
  destruct (HandleNetworkTunnelTxRx_accepted out tunnel s Mi)
    as (_ & s' & tr & _ & _ & H & S & _ & _ & _ & _ & _
        & N & B & F & I & _ & P & M).
  rewrite K in N. rewrite K, Hflight, Hfront in B. cbn [andb] in B.
  rewrite erase_transmitted_front in B.
  destruct (Nat.leb_spec (length D) 8) as [Le | _]; [lia |].
  rewrite Nat.min_l in B by lia.
  rewrite B in F, P, M. rewrite N in I.
  rewrite firstn_transfer_size in P.
  exists s', tr. parts; try assumption.
  rewrite M. unfold transfer_size_of. rewrite length_skipn.
  now rewrite (Nat.min_comm (length D - 8) 8).
Qed.

Lemma Run_acknowledged_fragments out requests : forall s D rest,
  payload_in_flight_ s = true ->
  read_buffer_ s = D :: rest ->
  Int.is_u32 (next_id_ s) ->
  acknowledge_from (next_id_ s) requests ->
  (8 * length requests < length D)%nat ->
  exists s' responses,
    Run (tunnel_requests out requests) s = Returned tt s' /\
    sent_ s' = sent_ s ++ map ResponseNetworkTunnelTxrx responses /\
    length responses = length requests /\
    next_id_ s' = Int.to_u32 (next_id_ s + Z.of_nat (length requests)) /\
    read_buffer_ s' = skipn (8 * length requests) D :: rest /\
    payload_in_flight_ s' = true /\
    forall (k : nat) r,
      nth_error responses k = Some r ->
      opt_id r = Some (Int.to_u32 (next_id_ s + Z.of_nat k + 1)) /\
      opt_payload r = Some (firstn 8 (skipn (8 * S k) D)) /\
      opt_remaining_bytes r =
        Some (Int.to_u32
                (Z.of_nat (length D - 8 * S k
                           - Nat.min 8 (length D - 8 * S k)))).
Proof.
  induction requests as [| tunnel later IH];
    intros s D rest Hflight Hfront Hnext Hacks Hmore.
  - exists s, []. cbn. rewrite app_nil_r, Z.add_0_r.
    rewrite (to_u32_small _ Hnext).
    parts; auto. intros [| k] r N; discriminate.
  - cbn [length] in Hmore.
    destruct (acknowledge_from_cons _ _ _ Hnext Hacks) as (Hid & Hack & Hlater).
    destruct (acknowledged_fragment out tunnel s D rest
                Hflight Hfront Hid Hack)
      as (s1 & r & H & S1 & N1 & B1 & F1 & I1 & P1 & M1); [lia |].
    rewrite <- N1 in Hlater.
    destruct (IH s1 (skipn 8 D) rest F1 B1)
      as (s' & responses & R & S & Len & N & B & F & Each);
      [rewrite N1; apply to_u32_range | exact Hlater
       | rewrite length_skipn; lia |].
    exists s', (r :: responses).
    rewrite Run_tunnel_request, H.
    split; [exact R |].
    split; [rewrite S, S1, <- app_assoc; reflexivity |].
    split; [cbn [length]; now rewrite Len |].
    split.
    { rewrite N, N1, to_u32_add_l. f_equal. cbn [length]. lia. }
    split.
    { rewrite B, skipn_skipn. do 2 f_equal. cbn [length]. lia. }
    split; [exact F |].
    intros [| k] r' Nth.
    + cbn in Nth. injection Nth as <-.
      rewrite I1, P1, M1. parts; do 2 f_equal; lia.
    + cbn [nth_error] in Nth.
      destruct (Each k r' Nth) as (I & P & M).
      rewrite I, P, M, N1, skipn_skipn, length_skipn.
      parts.
      * rewrite <- Z.add_assoc, to_u32_add_l. do 2 f_equal. lia.
      * do 3 f_equal. lia.
      * do 3 f_equal. lia.
Qed.

(** X13. Stop-and-wait fragmentation. While a chunk of the front datagram
    [D] is in flight, every request that acknowledges the id of the last
    response makes the secondary drop the acknowledged eight bytes and send
    the next eight: after [n] such requests, with more than [8 n] bytes in
    [D], the front of the read buffer is [D] without its first [8 n] bytes,
    [next_id] has advanced by [n], and response [k] carries the id after
    the one acknowledged, bytes [8 (k+1)] to [8 (k+2)] of [D] and the number
    of bytes of [D] that follow them. *)
Theorem acknowledged_fragments_follow_in_order
  (out : Outside) (requests : list NetworkTunnelTxRx)
  (s : Endpoint) (D : list byte) (rest : list (list byte))
  (Hflight : payload_in_flight_ s = true)
  (Hfront : read_buffer_ s = D :: rest)
  (Hnext : Int.is_u32 (next_id_ s))
  (Hacks : acknowledge_from (next_id_ s) requests)
  (Hmore : (8 * length requests < length D)%nat) :
  exists s' responses,
    Run (tunnel_requests out requests) s = Returned tt s' /\
    sent_ s' = sent_ s ++ map ResponseNetworkTunnelTxrx responses /\
    length responses = length requests /\
    next_id_ s' = Int.to_u32 (next_id_ s + Z.of_nat (length requests)) /\
    read_buffer_ s' = skipn (8 * length requests) D :: rest /\
    payload_in_flight_ s' = true /\
    forall (k : nat) r,
      nth_error responses k = Some r ->
      opt_id r = Some (Int.to_u32 (next_id_ s + Z.of_nat k + 1)) /\
      opt_payload r = Some (firstn 8 (skipn (8 * S k) D)) /\
      opt_remaining_bytes r =
        Some (Int.to_u32
                (Z.of_nat (length D - 8 * S k
                           - Nat.min 8 (length D - 8 * S k)))).
Proof.
  exact (Run_acknowledged_fragments out requests s D rest
           Hflight Hfront Hnext Hacks Hmore).
Qed.

Lemma acknowledge_from_one next_id tunnel :
  opt_id tunnel <> None ->
  opt_ack_id tunnel = Some (Int.to_u32 next_id) ->
  acknowledge_from next_id [tunnel].
Proof.
  intros I A [| [| k]] t N; try discriminate.
  cbn in N. injection N as <-. now rewrite Z.add_0_r.
Qed.

Lemma acknowledged_fragments_follow_in_order_witness :
  payload_in_flight_ sending_thirteen_bytes = true /\
  read_buffer_ sending_thirteen_bytes = [ABCDEFGH ++ IJKLM] /\
  acknowledge_from (next_id_ sending_thirteen_bytes) [request_5_ack_7] /\
  (8 * length [request_5_ack_7] < length (ABCDEFGH ++ IJKLM))%nat /\
  exists s' responses,
    Run (tunnel_requests outside_ok [request_5_ack_7])
      sending_thirteen_bytes = Returned tt s' /\
    length responses = 1%nat /\
    read_buffer_ s' = [IJKLM] /\
    forall (k : nat) r,
      nth_error responses k = Some r ->
      opt_payload r = Some (firstn 8 (skipn (8 * S k) (ABCDEFGH ++ IJKLM))).
Proof.
  assert (Hnext : Int.is_u32 (next_id_ sending_thirteen_bytes))
    by (unfold Int.is_u32; cbn; lia).
  assert (Hacks :
    acknowledge_from (next_id_ sending_thirteen_bytes) [request_5_ack_7]).
  { apply acknowledge_from_one; [cbn; discriminate | reflexivity]. }
  assert (Hmore :
    (8 * length [request_5_ack_7] < length (ABCDEFGH ++ IJKLM))%nat)
    by (cbn; lia).
  split; [reflexivity |]. split; [reflexivity |]. split; [exact Hacks |].
  split; [exact Hmore |].
  destruct (acknowledged_fragments_follow_in_order outside_ok
              [request_5_ack_7] sending_thirteen_bytes
              (ABCDEFGH ++ IJKLM) [] eq_refl eq_refl Hnext Hacks Hmore)
    as (s' & responses & R & _ & Len & _ & B & _ & Each).
  exists s', responses. parts; try assumption.
  intros k r N. now destruct (Each k r N) as (_ & P & _).
Defined.

Lemma concat_fragments (D : list byte) responses : forall offset,
  (forall (k : nat) r,
     nth_error responses k = Some r ->
     opt_payload r = Some (firstn 8 (skipn (8 * (offset + k)) D))) ->
  concat (map payload responses) =
  firstn (8 * length responses) (skipn (8 * offset) D).
Proof.
  induction responses as [| r responses IH]; intros offset Each;
    [reflexivity |].
  cbn [map concat length].
  pose proof (Each 0%nat r eq_refl) as P.
  rewrite Nat.add_0_r in P. unfold payload at 1. rewrite P.
  rewrite (IH (S offset)).
  - replace (8 * S (length responses))%nat
      with (8 + 8 * length responses)%nat by lia.
    rewrite firstn_plus, skipn_skipn. do 3 f_equal. lia.
  - intros k r' N. rewrite (Each (S k) r' N). do 3 f_equal. lia.
Qed.

(** X14. A datagram leaves the secondary whole and in order, and then leaves
    the read buffer. While the first chunk of the front datagram [D] is in
    flight, as many acknowledging requests as [D] has chunks of eight bytes
    draw the remaining chunks: the chunk in flight followed by the payloads
    of the responses but the last is [D], byte for byte; the response that
    carries the last bytes of [D] says that 0 bytes remain; the last request
    pops [D], and its response carries the first chunk of the next datagram
    if there is one. *)
Theorem datagram_is_sent_whole
  (out : Outside) (init : list NetworkTunnelTxRx) (final : NetworkTunnelTxRx)
  (s : Endpoint) (D : list byte) (rest : list (list byte))
  (Hflight : payload_in_flight_ s = true)
  (Hfront : read_buffer_ s = D :: rest)
  (Hnext : Int.is_u32 (next_id_ s))
  (Hacks : acknowledge_from (next_id_ s) (init ++ [final]))
  (Hlow : (8 * length init < length D)%nat)
  (Hhigh : (length D <= 8 * length init + 8)%nat) :
  exists s' responses last_response,
    Run (tunnel_requests out (init ++ [final])) s = Returned tt s' /\
    sent_ s' =
      sent_ s
      ++ map ResponseNetworkTunnelTxrx (responses ++ [last_response]) /\
    length responses = length init /\
    firstn 8 D ++ concat (map payload responses) = D /\
    (forall r,
       nth_error responses (length init - 1) = Some r ->
       remaining_bytes r = 0) /\
    read_buffer_ s' = rest /\
    next_id_ s' = Int.to_u32 (next_id_ s + Z.of_nat (length init) + 1) /\
    payload_in_flight_ s' = has_payload last_response /\
    opt_payload last_response =
      (match rest with
       | [] => None
       | next :: _ => Some (firstn 8 next)
       end).
Proof.
  assert (Hinit : acknowledge_from (next_id_ s) init).
  { intros k t N. apply Hacks. rewrite nth_error_app1; [exact N |].
    apply nth_error_Some. congruence. }
  destruct (Hacks (length init) final) as (Hid & Hack).
  { rewrite nth_error_app2, Nat.sub_diag by lia. reflexivity. }
  destruct (Run_acknowledged_fragments out init s D rest
              Hflight Hfront Hnext Hinit Hlow)
    as (s1 & responses & R1 & S1 & Len & N1 & B1 & F1 & Each).
  rewrite <- N1 in Hack.
  assert (Mi : missing_tunnel_fields s1 final = false)
    by (apply fields_present; congruence).
  assert (K : acknowledges final s1 = true)
    by (unfold acknowledges; rewrite Hack; apply Z.eqb_refl).
  destruct (HandleNetworkTunnelTxRx_accepted out final s1 Mi)
    as (_ & s' & tr & _ & _ & H & Sent & _ & _ & _ & _ & _
        & N & B & F & _ & _ & P & _).
  rewrite K in N, F. rewrite K, F1, B1 in B. cbn [andb] in B.
  rewrite erase_transmitted_front, length_skipn in B.
  destruct (Nat.leb_spec (length D - 8 * length init) 8) as [_ | Gt];
    [| lia].
  rewrite B, andb_false_r in F. rewrite B in P.
  exists s', responses, tr.
  split.
  { unfold tunnel_requests. rewrite map_app, Run_app.
    fold (tunnel_requests out init). rewrite R1.
    change (map _ [final]) with (tunnel_requests out [final]).
    rewrite Run_tunnel_request, H. reflexivity. }
  split; [rewrite Sent, S1, map_app, <- app_assoc; reflexivity |].
  split; [exact Len |].
  split.
  { rewrite (concat_fragments D responses 1).
    - rewrite Len.
      replace (8 * 1)%nat with 8%nat by reflexivity.
      rewrite <- firstn_plus. apply firstn_all2. lia.
    - intros k r Nth. now destruct (Each k r Nth) as (_ & Pk & _). }
  split.
  { intros r Nth.
    assert (Pos : (0 < length init)%nat).
    { destruct init; [| cbn; lia].
      cbn in Len. destruct responses; [discriminate Nth | discriminate]. }
    destruct (Each _ r Nth) as (_ & _ & M).
    unfold remaining_bytes. rewrite M.
    replace (length D - 8 * S (length init - 1)
             - Nat.min 8 (length D - 8 * S (length init - 1)))%nat
      with 0%nat by lia.
    reflexivity. }
  split; [exact B |].
  split; [rewrite N, N1, to_u32_add_l; reflexivity |].
  split.
  { unfold has_payload. rewrite F, P. now destruct rest. }
  rewrite P. destruct rest as [| next more]; [reflexivity |].
  now rewrite firstn_transfer_size.
Qed.

Lemma datagram_is_sent_whole_witness :
  acknowledge_from (next_id_ sending_thirteen_bytes)
    ([request_5_ack_7] ++ [request_4_ack_8]) /\
  exists s' responses last_response,
    Run (tunnel_requests outside_ok ([request_5_ack_7] ++ [request_4_ack_8]))
      sending_thirteen_bytes = Returned tt s' /\
    sent_ s' =
      sent_ sending_thirteen_bytes
      ++ map ResponseNetworkTunnelTxrx (responses ++ [last_response]) /\
    firstn 8 (ABCDEFGH ++ IJKLM) ++ concat (map payload responses)
    = ABCDEFGH ++ IJKLM /\
    read_buffer_ s' = [] /\
    payload_in_flight_ s' = has_payload last_response /\
    opt_payload last_response = None.
Proof.
  assert (Hnext : Int.is_u32 (next_id_ sending_thirteen_bytes))
    by (unfold Int.is_u32; cbn; lia).
  assert (Hacks :
    acknowledge_from (next_id_ sending_thirteen_bytes)
      ([request_5_ack_7] ++ [request_4_ack_8])).
  { intros [| [| [| k]]] t N; try discriminate;
      cbn in N; injection N as <-;
      (split; [cbn; discriminate | reflexivity]). }
  assert (Hlow :
    (8 * length [request_5_ack_7] < length (ABCDEFGH ++ IJKLM))%nat)
    by (cbn; lia).
  assert (Hhigh :
    (length (ABCDEFGH ++ IJKLM) <= 8 * length [request_5_ack_7] + 8)%nat)
    by (cbn; lia).
  split; [exact Hacks |].
  destruct (datagram_is_sent_whole outside_ok [request_5_ack_7]
              request_4_ack_8 sending_thirteen_bytes (ABCDEFGH ++ IJKLM) []
              eq_refl eq_refl Hnext Hacks Hlow Hhigh)
    as (s' & responses & last_response & R & Sent & _ & C & _ & B & _ & F & P).
  exists s', responses, last_response. parts; assumption.
Defined.

(** *** Reassembly over a session *)

Lemma fragments_after_cons last tunnel later :
  fragments_after last (tunnel :: later) ->
  opt_id tunnel = Some (Int.to_u32 (last + 1)) /\
  opt_ack_id tunnel <> None /\
  opt_payload tunnel <> None /\
  fragments_after (Int.to_u32 (last + 1)) later.
Proof.
  intros A.
  destruct (A 0%nat tunnel eq_refl) as (I & K & P).
  rewrite Z.add_0_r in I.
  parts; try assumption.
  intros k t N. destruct (A (S k) t N) as (I' & K' & P').
  parts; try assumption.
  rewrite I', <- (Z.add_assoc (Int.to_u32 (last + 1))), to_u32_add_l.
  do 2 f_equal. lia.
Qed.

(** One fragment in sequence. *)
Lemma HandleNetworkTunnelTxRx_fragment out tunnel s last p :
  last_ack_id_ s = Some last ->
  opt_id tunnel = Some (Int.to_u32 (last + 1)) ->
  opt_ack_id tunnel <> None ->
  opt_payload tunnel = Some p ->
  exists s',
    HandleNetworkTunnelTxRx out tunnel s = Returned tt s' /\
    last_ack_id_ s' = Some (Int.to_u32 (last + 1)) /\
    (remaining_bytes tunnel <> 0 ->
     frame_buffer_ s' = frame_buffer_ s ++ p /\ written_ s' = written_ s) /\
    (remaining_bytes tunnel = 0 ->
     frame_buffer_ s' = [] /\
     written_ s' = written_ s ++ [frame_buffer_ s ++ p]).
Proof.
  intros L I A P.
  assert (Mi : missing_tunnel_fields s tunnel = false)
    by (apply fields_present; congruence).
  assert (E : id tunnel = Int.to_u32 (last + 1))
    by (unfold id; now rewrite I).
  assert (V : expected_id s (id tunnel) = true)
    by (unfold expected_id; rewrite L, E; apply Z.eqb_refl).
  destruct (HandleNetworkTunnelTxRx_accepted out tunnel s Mi)
    as (s1 & s' & _ & last' & R1 & H & _ & L1 & L' & FB & W & _).
  exists s'. split; [exact H |]. rewrite FB, W, L', <- L1.
  destruct (Z.eq_dec (remaining_bytes tunnel) 0) as [R | R].
  - rewrite (receive_payload_last_fragment out tunnel s p V P R) in R1.
    injection R1 as <-. cbn. rewrite E. parts; auto. congruence.
  - rewrite (receive_payload_fragment out tunnel s p V P R) in R1.
    injection R1 as <-. cbn. rewrite E. parts; auto. congruence.
Qed.

Lemma Run_fragments out fragments : forall s last final,
  last_ack_id_ s = Some last ->
  fragments_after last (fragments ++ [final]) ->
  Forall (fun tunnel => remaining_bytes tunnel <> 0) fragments ->
  remaining_bytes final = 0 ->
  exists s',
    Run (tunnel_requests out (fragments ++ [final])) s = Returned tt s' /\
    written_ s' =
      written_ s
      ++ [frame_buffer_ s ++ concat (map payload (fragments ++ [final]))] /\
    frame_buffer_ s' = [] /\
    last_ack_id_ s' =
      Some (Int.to_u32
              (last + Z.of_nat (length (fragments ++ [final])))).
Proof.
  induction fragments as [| tunnel later IH];
    intros s last final L A More Final.
  - cbn [app] in *.
    destruct (fragments_after_cons _ _ _ A) as (I & K & P & _).
    destruct (opt_payload final) as [p |] eqn:Pf; [| congruence].
    destruct (HandleNetworkTunnelTxRx_fragment out final s last p L I K Pf)
      as (s' & H & L' & _ & Last).
    destruct (Last Final) as (FB & W).
    exists s'. rewrite Run_tunnel_request, H.
    cbn [map concat length]. unfold payload. rewrite Pf, app_nil_r.
    rewrite L'. auto.
  - cbn [app] in *.
    destruct (fragments_after_cons _ _ _ A) as (I & K & P & A').
    destruct (opt_payload tunnel) as [p |] eqn:Pt; [| congruence].
    destruct (HandleNetworkTunnelTxRx_fragment out tunnel s last p L I K Pt)
      as (s1 & H & L1 & Middle & _).
    inversion More as [| ? ? Rem More']; subst.
    destruct (Middle Rem) as (FB & W).
    destruct (IH s1 _ final L1 A' More' Final) as (s' & R & W' & FB' & L').
    exists s'. rewrite Run_tunnel_request, H.
    split; [exact R |].
    split.
    { rewrite W', W, FB. cbn [map concat].
      replace (payload tunnel) with p by (unfold payload; now rewrite Pt).
      now rewrite <- app_assoc. }
    split; [exact FB' |].
    rewrite L', to_u32_add_l. do 2 f_equal. cbn [length]. lia.
Qed.

(** X15. Reassembly. After an accepted message, a run of requests that
    follow in sequence, each with an acknowledgement and a payload, all but
    the last saying that bytes remain and the last that none does, ends with
    exactly one more write to the tunnel: what the frame buffer held
    followed by the payloads in order. The frame buffer is empty again, and
    [last_ack_id] is the id of the last request. *)
Theorem fragments_are_reassembled_in_order
  (out : Outside) (fragments : list NetworkTunnelTxRx)
  (final : NetworkTunnelTxRx) (s : Endpoint) (last : Z)
  (Hlast : last_ack_id_ s = Some last)
  (Hsequence : fragments_after last (fragments ++ [final]))
  (Hmore : Forall (fun tunnel => remaining_bytes tunnel <> 0) fragments)
  (Hfinal : remaining_bytes final = 0) :
  exists s',
    Run (tunnel_requests out (fragments ++ [final])) s = Returned tt s' /\
    written_ s' =
      written_ s
      ++ [frame_buffer_ s ++ concat (map payload (fragments ++ [final]))] /\
    frame_buffer_ s' = [] /\
    last_ack_id_ s' =
      Some (Int.to_u32
              (last + Z.of_nat (length (fragments ++ [final])))).
Proof.
  exact (Run_fragments out fragments s last final
           Hlast Hsequence Hmore Hfinal).
Qed.

Lemma fragments_are_reassembled_in_order_witness :
  last_ack_id_ after_first_fragment = Some 0 /\
  fragments_after 0 ([] ++ [request_1_last_fragment]) /\
  remaining_bytes request_1_last_fragment = 0 /\
  exists s',
    Run (tunnel_requests outside_ok ([] ++ [request_1_last_fragment]))
      after_first_fragment = Returned tt s' /\
    written_ s' =
      written_ after_first_fragment
      ++ [frame_buffer_ after_first_fragment
          ++ concat (map payload ([] ++ [request_1_last_fragment]))] /\
    frame_buffer_ s' = [] /\
    last_ack_id_ s' =
      Some (Int.to_u32
              (0 + Z.of_nat (length ([] ++ [request_1_last_fragment])))).
Proof.
  assert (Hsequence : fragments_after 0 ([] ++ [request_1_last_fragment])).
  { intros [| [| k]] t N; try discriminate.
    cbn in N. injection N as <-.
    split; [reflexivity |]. split; cbn; discriminate. }
  split; [reflexivity |]. split; [exact Hsequence |]. split; [reflexivity |].
  exact (fragments_are_reassembled_in_order outside_ok []
           request_1_last_fragment after_first_fragment 0
           eq_refl Hsequence (Forall_nil _) eq_refl).
Defined.

(** X16. [last_ack_id_] is never cleared, so the exemption of the first
    request does not come back: once the secondary holds a [last_ack_id_],
    then after any run of the loop a request without an ack_id is dropped,
    with no response and no change to any member. *)
Theorem request_without_ack_id_is_dropped_for_good
  (received : list (RequestResult * Request * Outside)) (out : Outside)
  (tunnel : NetworkTunnelTxRx) (s : Endpoint)
  (Hestablished : last_ack_id_ s <> None)
  (Hnoack : opt_ack_id tunnel = None) :
  exists s1 s2,
    Run received s = Returned tt s1 /\
    last_ack_id_ s1 <> None /\
    HandleNetworkTunnelTxRx out tunnel s1 = Returned tt s2 /\
    sent_ s2 = sent_ s1 /\
    written_ s2 = written_ s1 /\
    members s2 = members s1.
Proof.
  destruct (Run_steps received s) as (s1 & _ & _ & R & _ & L & _).
  specialize (L Hestablished).
  assert (Mi : missing_tunnel_fields s1 tunnel = true).
  { unfold missing_tunnel_fields, has_ack_id. rewrite Hnoack.
    destruct (last_ack_id_ s1); [apply orb_true_r | congruence]. }
  exists s1. eexists.
  split; [exact R |]. split; [exact L |].
  split; [exact (HandleNetworkTunnelTxRx_missing out tunnel s1 Mi) |].
  cbn. auto.
Qed.

Lemma request_without_ack_id_is_dropped_for_good_witness :
  last_ack_id_ after_first_fragment <> None /\
  opt_ack_id request_0_first_fragment = None /\
  exists s1 s2,
    Run [(Success, kNetworkTunnelTxrx request_1_last_fragment, outside_ok)]
      after_first_fragment = Returned tt s1 /\
    last_ack_id_ s1 <> None /\
    HandleNetworkTunnelTxRx outside_ok request_0_first_fragment s1
    = Returned tt s2 /\
    sent_ s2 = sent_ s1 /\
    written_ s2 = written_ s1 /\
    members s2 = members s1.
Proof.
  assert (Hestablished : last_ack_id_ after_first_fragment <> None)
    by (cbn; discriminate).
  split; [exact Hestablished |]. split; [reflexivity |].
  exact (request_without_ack_id_is_dropped_for_good
           [(Success, kNetworkTunnelTxrx request_1_last_fragment, outside_ok)]
           outside_ok request_0_first_fragment after_first_fragment
           Hestablished eq_refl).
Defined.

End Sessions.
